(** * Quiz file validation: a shallow embedding of the validator of
    [extension.ts] (quiz-file-support) and the properties of its
    diagnostics.

    The validator parses the text of a [.quiz] document, walks the parsed
    value with the permissive, truthiness-based checks of the TypeScript
    source, pushes diagnostics on one array, and publishes that array in the
    diagnostic collection under the document's uri.  Everything thrown inside
    the [try] block (by [JSON.parse], by reading a property of [null], by
    converting an object to a string) is caught by the single [catch], which
    pushes one more diagnostic. *)

From Stdlib Require Import String Ascii List ZArith Bool Lia DecimalString.
From Stdlib Require Import DecimalPos QArith Lqa.
Import ListNotations.
Close Scope Q_scope.
Local Open Scope string_scope.
Local Open Scope list_scope.

(** ** JavaScript values produced by [JSON.parse] *)

(** The value of a number: [JSON.parse] gives a double, that is a rational
    (a negative zero behaves as [0] in every test the validator applies) or,
    for a literal too large for a double, an infinity.  It never gives
    [NaN]. *)
Inductive NumberValue : Type :=
| Finite (q : Q)
| Infinite (negative : bool).

(** A number as the validator sees it: its value, which the comparisons
    read, and the text the engine's [Number::toString] gives for it, which a
    template literal prints ([5], [2.5], [1e+21], [Infinity]). *)
Record jsnumber : Type := mkNumber {
  valueOf : NumberValue;
  textOf : string
}.

(** Decimal rendering of an integer, as the engine prints an integer below
    [1e21] in absolute value (the positions and lengths of arrays among
    them; from [1e21] up the engine prints an exponent). *)
Definition numberToString (n : Z) : string :=
  NilZero.string_of_int (Z.to_int n).

(** The number an integer literal below [1e21] denotes, with its text. *)
Definition integer (n : Z) : jsnumber :=
  mkNumber (Finite (inject_Z n)) (numberToString n).

Coercion integer : Z >-> jsnumber.

(** [x < 0] *)
Definition numberLtZero (x : jsnumber) : bool :=
  match valueOf x with
  | Finite q => negb (Qle_bool (inject_Z 0) q)
  | Infinite negative => negative
  end.

(** [x >= length] for the length of an array. *)
Definition numberGeLength (x : jsnumber) (length : nat) : bool :=
  match valueOf x with
  | Finite q => Qle_bool (inject_Z (Z.of_nat length)) q
  | Infinite negative => negb negative
  end.

(** [x === k] for an integer literal [k]. *)
Definition numberEq (x : jsnumber) (k : Z) : bool :=
  match valueOf x with
  | Finite q => Qeq_bool q (inject_Z k)
  | Infinite _ => false
  end.

(** A parsed JSON value.  An object is the list of its own properties. *)
#[local] Unset Elimination Schemes.
Inductive json : Type :=
| JNull
| JBool (b : bool)
| JNumber (n : jsnumber)
| JString (s : string)
| JArray (items : list json)
| JObject (members : list (string * json)).
#[local] Set Elimination Schemes.
Arguments JNumber n%_Z.

(** The result of reading a property: [None] is [undefined]. *)
Definition jsvalue : Type := option json.

Inductive JsError : Type :=
| SyntaxError (message : string)
| TypeError (message : string).

(** [error.message] ([error instanceof Error] holds for both kinds). *)
Definition errorMessage (e : JsError) : string :=
  match e with
  | SyntaxError m => m
  | TypeError m => m
  end.

(** The outcome of evaluating an expression: a value or a thrown error. *)
Inductive completion (A : Type) : Type :=
| Normal (a : A)
| Throw (e : JsError).
Arguments Normal {A} a.
Arguments Throw {A} e.

Fixpoint assoc (key : string) (members : list (string * json)) : option json :=
  match members with
  | [] => None
  | (k, v) :: rest => if String.eqb k key then Some v else assoc key rest
  end.

(** [v.name] / [v[name]].  Reading a property of [null] throws; a primitive
    or an array has none of the names the validator reads ([metadata],
    [questions], [title], [description], [version], [author], [type], [text],
    [options], [correct_answers]), and neither has [Object.prototype]. *)
Definition getProp (v : json) (name : string) : completion jsvalue :=
  match v with
  | JNull =>
      Throw (TypeError ("Cannot read properties of null (reading '" ++ name ++ "')"))
  | JObject members => Normal (assoc name members)
  | _ => Normal None
  end.

(** [!!v]: [undefined], [null], [false], [0] and the empty string are falsy. *)
Definition truthy (v : jsvalue) : bool :=
  match v with
  | None => false
  | Some JNull => false
  | Some (JBool b) => b
  | Some (JNumber n) => negb (numberEq n 0)
  | Some (JString s) => negb (String.eqb s "")
  | Some (JArray _) => true
  | Some (JObject _) => true
  end.

(** [typeof v === 'string'] *)
Definition isString (v : jsvalue) : bool :=
  match v with
  | Some (JString _) => true
  | _ => false
  end.

(** [v === null] *)
Definition isNull (v : jsvalue) : bool :=
  match v with
  | Some JNull => true
  | _ => false
  end.

(** [v === s] for a string literal [s]. *)
Definition strictEqString (v : jsvalue) (s : string) : bool :=
  match v with
  | Some (JString t) => String.eqb t s
  | _ => false
  end.

(** [v !== k] for a number literal [k]. *)
Definition strictNeqNumber (v : json) (k : Z) : bool :=
  match v with
  | JNumber n => negb (numberEq n k)
  | _ => true
  end.

Definition hasOwn (key : string) (members : list (string * json)) : bool :=
  match assoc key members with
  | Some _ => true
  | None => false
  end.

Definition mapCompletion {A B : Type} (f : A -> B) (c : completion A) : completion B :=
  match c with
  | Normal a => Normal (f a)
  | Throw e => Throw e
  end.

(** The string a template literal puts for [${v}].  An array is joined with
    commas, [null] elements giving the empty string.  An object answers
    [[object Object]] through [Object.prototype.toString], unless an own
    property named [toString] shadows it: a JSON value is never callable, so
    the conversion then finds no primitive and throws. *)
Fixpoint toString (v : json) : completion string :=
  match v with
  | JNull => Normal "null"
  | JBool true => Normal "true"
  | JBool false => Normal "false"
  | JNumber n => Normal (textOf n)
  | JString s => Normal s
  | JArray items =>
      let element (x : json) : completion string :=
        match x with
        | JNull => Normal ""
        | _ => toString x
        end in
      (fix join (l : list json) : completion string :=
         match l with
         | [] => Normal ""
         | x :: rest =>
             match element x with
             | Throw e => Throw e
             | Normal s =>
                 match rest with
                 | [] => Normal s
                 | _ :: _ => mapCompletion (fun t => s ++ "," ++ t)%string (join rest)
                 end
             end
         end) items
  | JObject members =>
      if hasOwn "toString" members
      then Throw (TypeError "Cannot convert object to primitive value")
      else Normal "[object Object]"
  end.

(** [${v}] for the result of a property read ([undefined] included). *)
Definition templateString (v : jsvalue) : completion string :=
  match v with
  | None => Normal "undefined"
  | Some j => toString j
  end.

(** ** Diagnostics *)

Record Position : Type := mkPosition { line : nat; character : nat }.
Record Range : Type := mkRange { rangeStart : Position; rangeEnd : Position }.

(** [vscode.DiagnosticSeverity] *)
Inductive DiagnosticSeverity : Type := Error | Warning | Information | Hint.

Record Diagnostic : Type := mkDiagnostic {
  range : Range;
  message : string;
  severity : DiagnosticSeverity;
  source : string
}.

(** [new vscode.Range(0, 0, 0, 0)] *)
Definition zeroRange : Range := mkRange (mkPosition 0 0) (mkPosition 0 0).

(** A diagnostic of the validator itself ([diagnostic.source = 'quiz-validator']). *)
Definition quizDiagnostic (r : Range) (m : string) (s : DiagnosticSeverity) : Diagnostic :=
  mkDiagnostic r m s "quiz-validator".

(** ** Statements that push diagnostics and may throw *)

(** The [diagnostics] array is only ever appended to, so a statement is
    described by the diagnostics it pushes, in order, and by how it
    completes.  What was pushed before a throw stays in the array. *)
Definition Eff (A : Type) : Type := list Diagnostic * completion A.

Definition ret {A : Type} (a : A) : Eff A := ([], Normal a).
Definition push (d : Diagnostic) : Eff unit := ([d], Normal tt).
Definition eval {A : Type} (c : completion A) : Eff A := ([], c).

Definition bind {A B : Type} (m : Eff A) (k : A -> Eff B) : Eff B :=
  match m with
  | (ds, Throw e) => (ds, Throw e)
  | (ds, Normal a) => (ds ++ fst (k a), snd (k a))
  end.

Notation "x <- m ;; k" := (bind m (fun x => k))
  (at level 61, m at next level, right associativity).
Notation "m ;; k" := (bind m (fun _ => k))
  (at level 61, right associativity).

Definition pushed {A : Type} (m : Eff A) : list Diagnostic := fst m.
Definition outcome {A : Type} (m : Eff A) : completion A := snd m.

(** [for (const x of l) body(x)] *)
Fixpoint forOf {A : Type} (body : A -> Eff unit) (l : list A) : Eff unit :=
  match l with
  | [] => ret tt
  | x :: rest => body x ;; forOf body rest
  end.

(** [l.forEach((x, index) => body(x, index))], counting from [index]. *)
Fixpoint forEachFrom {A : Type} (body : A -> nat -> Eff unit) (l : list A)
    (index : nat) : Eff unit :=
  match l with
  | [] => ret tt
  | x :: rest => body x index ;; forEachFrom body rest (S index)
  end.

Definition forEach {A : Type} (body : A -> nat -> Eff unit) (l : list A) : Eff unit :=
  forEachFrom body l 0.

(** ** The question rule engine: the callback of [questions.forEach] *)

Definition supportedTypes : list string :=
  ["multiple_choice"; "single_choice"; "true_false"].

(** [['multiple_choice', 'single_choice', 'true_false'].includes(v)] *)
Definition isSupportedType (v : jsvalue) : bool :=
  match v with
  | Some (JString s) => existsb (String.eqb s) supportedTypes
  | _ => false
  end.

(** The prefix [Question ${index + 1}: ] of every message of the callback. *)
Definition questionLabel (index : nat) : string :=
  "Question " ++ numberToString (Z.of_nat index + 1) ++ ": ".

(** A diagnostic of the callback: its range is always [Range(0, 0, 0, 0)]. *)
Definition questionDiagnostic (index : nat) (body : string)
    (s : DiagnosticSeverity) : Diagnostic :=
  quizDiagnostic zeroRange (questionLabel index ++ body) s.

Definition invalidTypeBody (type : string) : string :=
  "Invalid question type '" ++ type
  ++ "'. Supported types: multiple_choice, single_choice, true_false".

Definition atLeastTwoOptionsBody (type : string) : string :=
  type ++ " questions must have at least 2 options".

Definition exactlyOneAnswerBody (type : string) : string :=
  type ++ " questions must have exactly one correct answer".

Definition invalidIndexBody (answerIndex : string) (optionsLength : nat) : string :=
  "correct_answers contains invalid index " ++ answerIndex
  ++ ". Valid range: 0-" ++ numberToString (Z.of_nat optionsLength - 1).

(** [typeof answerIndex !== 'number' || answerIndex < 0
     || answerIndex >= question.options.length] *)
Definition isInvalidIndex (answerIndex : json) (optionsLength : nat) : bool :=
  match answerIndex with
  | JNumber n => numberLtZero n || numberGeLength n optionsLength
  | _ => true
  end.

(** [v] is a number with [0 <= v < optionsLength]. *)
Definition inRange (v : json) (optionsLength : nat) : Prop :=
  exists n q,
    v = JNumber n /\ valueOf n = Finite q
    /\ (inject_Z 0 <= q < inject_Z (Z.of_nat optionsLength))%Q.

(** The body of [for (const answerIndex of question.correct_answers)]. *)
Definition checkAnswerIndex (index optionsLength : nat) (answerIndex : json)
    : Eff unit :=
  if isInvalidIndex answerIndex optionsLength then
    shown <- eval (toString answerIndex) ;;
    push (questionDiagnostic index (invalidIndexBody shown optionsLength) Error)
  else ret tt.

(** "Validate question type" *)
Definition validateQuestionType (type : jsvalue) (index : nat) : Eff unit :=
  if negb (truthy type) then
    push (questionDiagnostic index "Missing required property: type" Error)
  else if negb (isSupportedType type) then
    shown <- eval (templateString type) ;;
    push (questionDiagnostic index (invalidTypeBody shown) Error)
  else ret tt.

(** "Validate question text" *)
Definition validateQuestionText (text : jsvalue) (index : nat) : Eff unit :=
  if negb (truthy text) then
    push (questionDiagnostic index "Missing required property: text" Error)
  else if negb (isString text) then
    push (questionDiagnostic index "text must be a string" Error)
  else ret tt.

(** "Validate options (required for all question types)"; runs with a
    supported [type], whose conversion to a string is the string itself. *)
Definition validateQuestionOptions (type options : jsvalue) (index : nat)
    : Eff unit :=
  if negb (truthy options) then
    push (questionDiagnostic index "Missing required property: options" Error)
  else
    match options with
    | Some (JArray opts) =>
        if strictEqString type "true_false" then
          if negb (length opts =? 2)%nat then
            push (questionDiagnostic index
                    "true_false questions must have exactly 2 options" Error)
          else ret tt
        else if (length opts <? 2)%nat then
          shown <- eval (templateString type) ;;
          push (questionDiagnostic index (atLeastTwoOptionsBody shown) Warning)
        else ret tt
    | _ => push (questionDiagnostic index "options must be an array" Error)
    end.

(** "Type-specific validation for correct_answers", on a non-empty array. *)
Definition checkAnswerCount (type : jsvalue) (answers : list json) (index : nat)
    : Eff unit :=
  if strictEqString type "single_choice" || strictEqString type "true_false" then
    if negb (length answers =? 1)%nat then
      shown <- eval (templateString type) ;;
      push (questionDiagnostic index (exactlyOneAnswerBody shown) Error)
    else ret tt
  else ret tt.

(** "Additional validation for true_false questions": the answer read is
    [question.correct_answers[0]]. *)
Definition checkTrueFalseAnswer (type : jsvalue) (answers : list json)
    (index : nat) : Eff unit :=
  if strictEqString type "true_false" && (length answers =? 1)%nat then
    match answers with
    | answerIndex :: _ =>
        if strictNeqNumber answerIndex 0 && strictNeqNumber answerIndex 1 then
          push (questionDiagnostic index
                  "true_false questions must have correct_answers index 0 or 1"
                  Error)
        else ret tt
    | [] => ret tt
    end
  else ret tt.

(** "Validate correct_answers (required for all question types)" *)
Definition validateQuestionAnswers (type options correct_answers : jsvalue)
    (index : nat) : Eff unit :=
  if negb (truthy correct_answers) then
    push (questionDiagnostic index
            "Missing required property: correct_answers" Error)
  else if isNull correct_answers then
    push (questionDiagnostic index "correct_answers cannot be null" Error)
  else
    match correct_answers with
    | Some (JArray answers) =>
        if (length answers =? 0)%nat then
          push (questionDiagnostic index "correct_answers cannot be empty" Error)
        else
          checkAnswerCount type answers index ;;
          (* Validate correct_answers indices for all types:
             [question.options && Array.isArray(question.options)] *)
          match options with
          | Some (JArray opts) =>
              forOf (checkAnswerIndex index (length opts)) answers ;;
              checkTrueFalseAnswer type answers index
          | _ => ret tt
          end
    | _ => push (questionDiagnostic index "correct_answers must be an array" Error)
    end.

(** The callback [(question, index) => { ... }] of [questions.forEach]. *)
Definition validateQuestion (question : json) (index : nat) : Eff unit :=
  type <- eval (getProp question "type") ;;
  validateQuestionType type index ;;
  text <- eval (getProp question "text") ;;
  validateQuestionText text index ;;
  (* Validate type-specific fields *)
  if isSupportedType type then
    options <- eval (getProp question "options") ;;
    validateQuestionOptions type options index ;;
    correct_answers <- eval (getProp question "correct_answers") ;;
    validateQuestionAnswers type options correct_answers index
  else ret tt.

(** ** The structural validator *)

(** [vscode.TextDocument]: the members the validator uses. *)
Record TextDocument : Type := mkTextDocument {
  fileName : string;
  uri : string;
  getText : string;
  positionAt : nat -> Position
}.

Definition doubleQuote : ascii := ascii_of_nat 34.

Definition quoted (s : string) : string :=
  String doubleQuote (s ++ String doubleQuote EmptyString).

(** [property] cut at its first dot, the one [property.replace('.', ...)]
    rewrites. *)
Fixpoint splitAtDot (property : string) : string * option string :=
  match property with
  | EmptyString => (EmptyString, None)
  | String c rest =>
      if Ascii.eqb c "." then (EmptyString, Some rest)
      else let (parent, child) := splitAtDot rest in (String c parent, child)
  end.

(** The regular expressions [findPropertyRange] builds: a sequence of words,
    whose characters match themselves, and of [[\s\S]*?], which matches any
    run of characters, the shortest first. *)
Inductive RegExpItem : Type :=
| Literal (word : string)
| LazyAny.

(** [text] from offset [n] on. *)
Fixpoint drop (n : nat) (text : string) : string :=
  match n, text with
  | S n', String _ rest => drop n' rest
  | _, _ => text
  end.

(** The backtracking match of [items] at the start of [text]: the length of
    the match found.  A word is compared with the text character by
    character; [[\s\S]*?] first tries to go on with no character, then with
    one more, up to the end of the text. *)
Fixpoint matchItems (items : list RegExpItem) (text : string) : option nat :=
  match items with
  | [] => Some 0
  | Literal word :: rest =>
      if prefix word text then
        option_map (Nat.add (String.length word))
          (matchItems rest (drop (String.length word) text))
      else None
  | LazyAny :: rest =>
      (fix lazy (text : string) : option nat :=
         match matchItems rest text with
         | Some n => Some n
         | None =>
             match text with
             | EmptyString => None
             | String _ tail => option_map S (lazy tail)
             end
         end) text
  end.

(** [pattern.exec(text)] on a fresh pattern ([lastIndex] is [0]): the match
    is tried at every offset from the left, and [match.index] is the first
    offset where it succeeds.  [text] is the text from [offset] on. *)
Fixpoint execFrom (items : list RegExpItem) (text : string) (offset : nat)
    : option nat :=
  match matchItems items text with
  | Some _ => Some offset
  | None =>
      match text with
      | EmptyString => None
      | String _ tail => execFrom items tail (S offset)
      end
  end.

(** [new RegExp(`"${property.replace('.', '"[\\s\\S]*?"')}"`, 'g')]:
    [replace] rewrites the first dot only, so the pattern is the quoted
    name, or the quoted parent, [[\s\S]*?] and the quoted child.  The
    properties the validator passes ([metadata], [questions] and
    [metadata.] followed by a required field) are made of letters around at
    most one dot, and a letter matches itself; a name with a character that
    is special in a regular expression is outside this embedding. *)
Definition propertyPattern (property : string) : list RegExpItem :=
  match splitAtDot property with
  | (name, None) => [Literal (quoted name)]
  | (parent, Some child) => [Literal (quoted parent); LazyAny; Literal (quoted child)]
  end.

(** "Helper function to find property range in document" *)
Definition findPropertyRange (document : TextDocument) (property : string)
    : option Range :=
  match execFrom (propertyPattern property) (getText document) 0 with
  | Some i => let pos := positionAt document i in Some (mkRange pos pos)
  | None => None
  end.

(** [findPropertyRange(document, property) || new vscode.Range(0, 0, 0, 0)] *)
Definition propertyRange (document : TextDocument) (property : string) : Range :=
  match findPropertyRange document property with
  | Some r => r
  | None => zeroRange
  end.

Definition requiredFields : list string :=
  ["title"; "description"; "version"; "author"].

Definition missingFieldDiagnostic (document : TextDocument) (field : string)
    : Diagnostic :=
  quizDiagnostic (propertyRange document ("metadata." ++ field))
    ("Missing required property: metadata." ++ field) Error.

Definition fieldTypeDiagnostic (document : TextDocument) (field : string)
    : Diagnostic :=
  quizDiagnostic (propertyRange document ("metadata." ++ field))
    ("metadata." ++ field ++ " must be a string") Error.

(** The body of [for (const field of requiredFields)]. *)
Definition validateMetadataField (metadata : json) (document : TextDocument)
    (field : string) : Eff unit :=
  value <- eval (getProp metadata field) ;;
  if negb (truthy value) then push (missingFieldDiagnostic document field)
  else
    (* Type validation - all fields must be strings *)
    if negb (isString value) then push (fieldTypeDiagnostic document field)
    else ret tt.

(** "Helper function to validate metadata" *)
Definition validateMetadata (metadata : json) (document : TextDocument)
    : Eff unit :=
  forOf (validateMetadataField metadata document) requiredFields.

(** "Helper function to validate questions" *)
Definition validateQuestions (questions : json) (document : TextDocument)
    : Eff unit :=
  match questions with
  | JArray items => forEach validateQuestion items
  | _ =>
      push (quizDiagnostic (propertyRange document "questions")
              "questions must be an array" Error)
  end.

(** ** Validation of a document *)

(** An error object of the schema validator (ajv). *)
Record ErrorObject : Type := mkErrorObject {
  instancePath : string;
  errorText : string
}.

(** "Helper function to format schema error messages":
    [error.instancePath || 'Root'], then the error's message. *)
Definition formatSchemaError (error : ErrorObject) : string :=
  (if String.eqb (instancePath error) "" then "Root" else instancePath error)
  ++ ": " ++ errorText error.

(** "Helper function to find error range for schema errors" *)
Definition findErrorRange (document : TextDocument) (error : ErrorObject)
    : option Range :=
  Some zeroRange.

Definition schemaDiagnostic (document : TextDocument) (error : ErrorObject)
    : Diagnostic :=
  mkDiagnostic
    (match findErrorRange document error with Some r => r | None => zeroRange end)
    (formatSchemaError error) Error "quiz-schema".

(** [s.endsWith(suffix)] *)
Definition endsWith (s suffix : string) : bool :=
  (String.length suffix <=? String.length s)%nat
  && String.eqb
       (substring (String.length s - String.length suffix) (String.length suffix) s)
       suffix.

(** [diagnosticCollection]: the diagnostics last published for each uri. *)
Definition DiagnosticCollection : Type := list (string * list Diagnostic).

Fixpoint collectionGet (key : string) (c : DiagnosticCollection)
    : option (list Diagnostic) :=
  match c with
  | [] => None
  | (k, ds) :: rest => if String.eqb k key then Some ds else collectionGet key rest
  end.

(** [diagnosticCollection.set(uri, diagnostics)] replaces the entry of [uri]. *)
Fixpoint collectionSet (key : string) (ds : list Diagnostic)
    (c : DiagnosticCollection) : DiagnosticCollection :=
  match c with
  | [] => [(key, ds)]
  | (k, old) :: rest =>
      if String.eqb k key then (k, ds) :: rest
      else (k, old) :: collectionSet key ds rest
  end.

Section Validator.

(** [JSON.parse]: the parsed value, or the [SyntaxError] it throws. *)
Variable JSON_parse : string -> completion json.

(** The compiled schema ([validate]), [None] when no schema could be
    loaded; applied to a value it gives [validate.errors] (no error when
    the value is valid). *)
Variable validate : option (json -> list ErrorObject).

(** "Validate against JSON schema if available" *)
Definition validateSchema (quiz : json) (document : TextDocument) : Eff unit :=
  match validate with
  | Some check => forOf (fun error => push (schemaDiagnostic document error)) (check quiz)
  | None => ret tt
  end.

(** The [try] block of [validateQuizFile]. *)
Definition validateText (document : TextDocument) : Eff unit :=
  quiz <- eval (JSON_parse (getText document)) ;;
  (* Basic structure validation *)
  metadata <- eval (getProp quiz "metadata") ;;
  (if negb (truthy metadata) then
     push (quizDiagnostic (propertyRange document "metadata")
             "Missing required property: metadata" Error)
   else
     match metadata with
     | Some m => validateMetadata m document
     | None => ret tt
     end) ;;
  questions <- eval (getProp quiz "questions") ;;
  (if negb (truthy questions) then
     push (quizDiagnostic (propertyRange document "questions")
             "Missing required property: questions" Error)
   else
     match questions with
     | Some q => validateQuestions q document
     | None => ret tt
     end) ;;
  validateSchema quiz document.

(** The diagnostic of the [catch] block. *)
Definition invalidJsonDiagnostic (error : JsError) : Diagnostic :=
  quizDiagnostic zeroRange ("Invalid JSON: " ++ errorMessage error) Error.

(** [try { ... } catch (error) { diagnostics.push(...) }]: the array
    [diagnostics] when the statement is over. *)
Definition collectDiagnostics (document : TextDocument) : list Diagnostic :=
  match validateText document with
  | (ds, Normal _) => ds
  | (ds, Throw error) => ds ++ [invalidJsonDiagnostic error]
  end.

(** "Function to validate quiz file" *)
Definition validateQuizFile (document : TextDocument)
    (diagnosticCollection : DiagnosticCollection) : DiagnosticCollection :=
  if negb (endsWith (fileName document) ".quiz") then diagnosticCollection
  else collectionSet (uri document) (collectDiagnostics document) diagnosticCollection.

End Validator.

(** ** Sample documents *)

(** The first question of the sample quiz of [createSample]. *)
Definition capitalQuestion : json :=
  JObject [("type", JString "multiple_choice");
           ("text", JString "What is the capital of France?");
           ("options", JArray [JString "Madrid"; JString "Paris";
                               JString "Rome"; JString "Berlin"]);
           ("correct_answers", JArray [JNumber 1])].

Definition sampleMetadata : json :=
  JObject [("title", JString "Sample Quiz");
           ("description", JString "A comprehensive quiz example with all question types");
           ("version", JString "1.0.0");
           ("author", JString "Quiz Author")].

(** The failing input of C1: a multiple choice question with
    [correct_answers: null], first of its quiz. *)
Definition nullAnswersQuestion : json :=
  JObject [("type", JString "multiple_choice");
           ("text", JString "Test question");
           ("options", JArray [JString "A"; JString "B"; JString "C"]);
           ("correct_answers", JNull)].

(** A question of a type the validator does not support, with neither
    [options] nor [correct_answers]. *)
Definition essayMembers : list (string * json) :=
  [("type", JString "essay"); ("text", JString "Explain the water cycle.")].

Definition essayQuestion : json := JObject essayMembers.

(** A question of an unsupported type with three options and the answers
    [0] and [5]. *)
Definition essayWithAnswers : json :=
  JObject [("type", JString "essay");
           ("text", JString "Explain the water cycle.");
           ("options", JArray [JString "A"; JString "B"; JString "C"]);
           ("correct_answers", JArray [JNumber 0; JNumber 5])].

(** The same question as a multiple choice question (test "invalid
    correct_answers index"). *)
Definition outOfRangeMembers : list (string * json) :=
  [("type", JString "multiple_choice");
   ("text", JString "Test question");
   ("options", JArray [JString "A"; JString "B"; JString "C"]);
   ("correct_answers", JArray [JNumber 0; JNumber 5])].

(** A multiple choice question with three options whose third answer is an
    object with an own property named [toString]. *)
Definition cutShortMembers : list (string * json) :=
  [("type", JString "multiple_choice");
   ("text", JString "Test question");
   ("options", JArray [JString "A"; JString "B"; JString "C"]);
   ("correct_answers",
    JArray [JNumber 0; JNumber 7; JObject [("toString", JNumber 1)]; JNumber 5])].

(** A single choice question with an empty array of answers. *)
Definition emptyAnswersQuestion : json :=
  JObject [("type", JString "single_choice");
           ("text", JString "Test question");
           ("options", JArray [JString "A"; JString "B"; JString "C"]);
           ("correct_answers", JArray [])].

(** A single choice question with two answers. *)
Definition twoAnswersMembers : list (string * json) :=
  [("type", JString "single_choice");
   ("text", JString "Test question");
   ("options", JArray [JString "A"; JString "B"; JString "C"]);
   ("correct_answers", JArray [JNumber 0; JNumber 1])].

(** A true_false question whose only answer is an object with an own
    property named [toString]. *)
Definition shadowedToStringQuestion : json :=
  JObject [("type", JString "true_false");
           ("text", JString "The Earth is flat.");
           ("options", JArray [JString "True"; JString "False"]);
           ("correct_answers", JArray [JObject [("toString", JNumber 1)]])].

Definition shadowedToStringQuiz : json :=
  JObject [("metadata", sampleMetadata);
           ("questions", JArray [shadowedToStringQuestion])].

(** The number [0.5]. *)
Definition half : jsnumber := mkNumber (Finite (1 # 2)) "0.5".

(** A true_false question whose only answer is [0.5]. *)
Definition answerHalfMembers : list (string * json) :=
  [("type", JString "true_false");
   ("text", JString "The Earth is flat.");
   ("options", JArray [JString "True"; JString "False"]);
   ("correct_answers", JArray [JNumber half])].

(** A document of the editor; positions are given as offsets on line 0. *)
Definition quizDocument (name text : string) : TextDocument :=
  mkTextDocument name ("file:///" ++ name) text (fun offset => mkPosition 0 offset).

(** Metadata whose [title] is the number [0]. *)
Definition zeroTitleMetadata : json :=
  JObject [("title", JNumber 0);
           ("description", JString "A test quiz");
           ("version", JString "1.0");
           ("author", JString "Test Author")].

(** Metadata whose [version] is the number [123] (test "wrong type in
    metadata.version"). *)
Definition numericVersionMetadata : json :=
  JObject [("title", JString "Test Quiz");
           ("description", JString "A test quiz");
           ("version", JNumber 123);
           ("author", JString "Test Author")].

Definition sampleDocument : TextDocument :=
  quizDocument "sample.quiz" "sample quiz text".

(** The text of a value whose strings need no escaping, as
    [JSON.stringify] writes it. *)
Fixpoint renderJson (v : json) : string :=
  match v with
  | JNull => "null"
  | JBool true => "true"
  | JBool false => "false"
  | JNumber n => textOf n
  | JString s => quoted s
  | JArray items =>
      let elements :=
        fix elements (l : list json) : string :=
          match l with
          | [] => EmptyString
          | x :: rest =>
              (renderJson x ++
               match rest with
               | [] => EmptyString
               | _ :: _ => "," ++ elements rest
               end)%string
          end in
      ("[" ++ elements items ++ "]")%string
  | JObject members =>
      let properties :=
        fix properties (l : list (string * json)) : string :=
          match l with
          | [] => EmptyString
          | (k, x) :: rest =>
              (quoted k ++ ":" ++ renderJson x ++
               match rest with
               | [] => EmptyString
               | _ :: _ => "," ++ properties rest
               end)%string
          end in
      ("{" ++ properties members ++ "}")%string
  end.

(** A stand-in for [JSON.parse] on sample files: it reads back the text of
    the values it is given and rejects any other text. *)
Fixpoint parseKnown (known : list json) (text : string) : completion json :=
  match known with
  | [] => Throw (SyntaxError "Unexpected end of JSON input")
  | v :: rest =>
      if String.eqb (renderJson v) text then Normal v else parseKnown rest text
  end.

(** The minimal valid quiz: the sample metadata and one multiple choice
    question with four options and [correct_answers: [1]]. *)
Definition minimalQuiz : json :=
  JObject [("metadata", sampleMetadata); ("questions", JArray [capitalQuestion])].

(** A quiz without questions. *)
Definition emptyQuiz : json :=
  JObject [("metadata", sampleMetadata); ("questions", JArray [])].

Definition sampleParse : string -> completion json :=
  parseKnown [minimalQuiz; emptyQuiz; shadowedToStringQuiz].

Definition minimalDocument : TextDocument :=
  quizDocument "minimal.quiz" (renderJson minimalQuiz).

Definition emptyDocument : TextDocument :=
  quizDocument "empty.quiz" (renderJson emptyQuiz).

Definition shadowedToStringDocument : TextDocument :=
  quizDocument "shadowed.quiz" (renderJson shadowedToStringQuiz).

(** A document cut off in the middle of its metadata. *)
Definition brokenDocument : TextDocument :=
  quizDocument "broken.quiz" "{ metadata: ".

(** ** What the validator accepts *)

(** A required metadata field that passes both tests of the loop: a
    non-empty string. *)
Definition acceptedMetadataField (metadata : json) (field : string) : bool :=
  match getProp metadata field with
  | Normal (Some (JString s)) => negb (String.eqb s "")
  | _ => false
  end.

Definition acceptedMetadata (metadata : json) : bool :=
  forallb (acceptedMetadataField metadata) requiredFields.

(** The rule on the number of options: exactly two for [true_false], two or
    more for the other types. *)
Definition optionCountOk (type : string) (count : nat) : bool :=
  if String.eqb type "true_false" then (count =? 2)%nat else (2 <=? count)%nat.

(** The rule on the number of answers: exactly one for [single_choice] and
    [true_false], one or more for [multiple_choice]. *)
Definition answerCountOk (type : string) (count : nat) : bool :=
  if String.eqb type "single_choice" || String.eqb type "true_false"
  then (count =? 1)%nat
  else negb (count =? 0)%nat.

(** [v === 0 || v === 1] *)
Definition isZeroOrOne (v : json) : bool :=
  negb (strictNeqNumber v 0 && strictNeqNumber v 1).

(** The rule on the answers of a [true_false] question: each is [0] or [1]. *)
Definition answerDomainOk (type : string) (answers : list json) : bool :=
  if String.eqb type "true_false" then forallb isZeroOrOne answers else true.

(** A question on which the callback has nothing to report: a supported
    type, a non-empty text, arrays of options and answers of the right
    sizes, every answer a number [v] with [0 <= v < options.length] (a
    fraction such as [0.5] passes that test) and, for [true_false], equal to
    [0] or [1].  The options themselves are not looked at, and answers may
    repeat. *)
Definition acceptedQuestion (question : json) : bool :=
  match question with
  | JObject members =>
      match assoc "type" members, assoc "text" members,
            assoc "options" members, assoc "correct_answers" members with
      | Some (JString type), Some (JString text),
        Some (JArray opts), Some (JArray answers) =>
          existsb (String.eqb type) supportedTypes
          && negb (String.eqb text "")
          && optionCountOk type (length opts)
          && answerCountOk type (length answers)
          && forallb (fun v => negb (isInvalidIndex v (length opts))) answers
          && answerDomainOk type answers
      | _, _, _, _ => false
      end
  | _ => false
  end.

Definition acceptedQuiz (quiz : json) : bool :=
  match quiz with
  | JObject members =>
      match assoc "metadata" members, assoc "questions" members with
      | Some metadata, Some (JArray items) =>
          acceptedMetadata metadata && forallb acceptedQuestion items
      | _, _ => false
      end
  | _ => false
  end.

(** ** Commands and listeners of [activate] *)

(** [isQuizFile] *)
Definition isQuizFile (document : TextDocument) : bool :=
  endsWith (fileName document) ".quiz".

(** What a command shows with [vscode.window.show...Message]. *)
Inductive Notification : Type :=
| InformationMessage (text : string)
| WarningMessage (text : string).

Section Activation.

Variable JSON_parse : string -> completion json.
Variable validate : option (json -> list ErrorObject).

(** The command [quiz-file-support.validateFile]; [activeEditor] is the
    document of [vscode.window.activeTextEditor], if any. *)
Definition validateCommand (activeEditor : option TextDocument)
    (diagnosticCollection : DiagnosticCollection)
    : DiagnosticCollection * Notification :=
  match activeEditor with
  | Some document =>
      if isQuizFile document then
        (validateQuizFile JSON_parse validate document diagnosticCollection,
         InformationMessage "Quiz file validation completed!")
      else (diagnosticCollection, WarningMessage "Please open a .quiz file to validate.")
  | None => (diagnosticCollection, WarningMessage "Please open a .quiz file to validate.")
  end.

(** The command [quiz-file-support.forceValidate]. *)
Definition forceValidateCommand (activeEditor : option TextDocument)
    (diagnosticCollection : DiagnosticCollection)
    : DiagnosticCollection * Notification :=
  match activeEditor with
  | Some document =>
      (validateQuizFile JSON_parse validate document diagnosticCollection,
       InformationMessage "Force validation completed!")
  | None => (diagnosticCollection, WarningMessage "No active editor found.")
  end.

(** The listeners of [onDidOpenTextDocument], [onDidChangeActiveTextEditor]
    and [onDidChangeTextDocument], as far as the collection goes. *)
Definition onDidOpenTextDocument (document : TextDocument)
    (diagnosticCollection : DiagnosticCollection) : DiagnosticCollection :=
  if isQuizFile document
  then validateQuizFile JSON_parse validate document diagnosticCollection
  else diagnosticCollection.

Definition onDidChangeActiveTextEditor (editor : option TextDocument)
    (diagnosticCollection : DiagnosticCollection) : DiagnosticCollection :=
  match editor with
  | Some document =>
      if isQuizFile document
      then validateQuizFile JSON_parse validate document diagnosticCollection
      else diagnosticCollection
  | None => diagnosticCollection
  end.

Definition onDidChangeTextDocument (document : TextDocument)
    (diagnosticCollection : DiagnosticCollection) : DiagnosticCollection :=
  if isQuizFile document
  then validateQuizFile JSON_parse validate document diagnosticCollection
  else diagnosticCollection.

(** Documents opened or changed one after the other. *)
Definition onDocumentEvents (documents : list TextDocument)
    (diagnosticCollection : DiagnosticCollection) : DiagnosticCollection :=
  fold_left (fun c document => onDidChangeTextDocument document c)
    documents diagnosticCollection.

End Activation.

(** ** Loading the schema *)

Section SchemaLoading.

(** [fs.existsSync] *)
Variable existsSync : string -> bool.

(** Reading the file, parsing it and compiling it with ajv: the compiled
    validator, or [None] when one of the three throws. *)
Variable compileSchemaAt : string -> option (json -> list ErrorObject).

(** [for (const schemaPath of possibleSchemaPaths)]: the value of
    [validate] when the loop is over. *)
Fixpoint loadSchema (possibleSchemaPaths : list string)
    : option (json -> list ErrorObject) :=
  match possibleSchemaPaths with
  | [] => None
  | schemaPath :: rest =>
      if existsSync schemaPath then
        match compileSchemaAt schemaPath with
        | Some compiled => Some compiled
        | None => loadSchema rest
        end
      else loadSchema rest
  end.

End SchemaLoading.

(** The quiz written by the command [quiz-file-support.createSample]. *)
Definition sampleQuiz : json :=
  JObject
    [("metadata", sampleMetadata);
     ("questions",
      JArray
        [JObject [("type", JString "multiple_choice");
                  ("text", JString "What is the capital of France?");
                  ("options", JArray [JString "Madrid"; JString "Paris";
                                      JString "Rome"; JString "Berlin"]);
                  ("correct_answers", JArray [JNumber 1]);
                  ("explanation", JString "Paris is the capital city of France.")];
         JObject [("type", JString "multiple_choice");
                  ("text", JString "Which of the following are programming languages?");
                  ("options", JArray [JString "Python"; JString "HTML";
                                      JString "C++"; JString "CSS"]);
                  ("correct_answers", JArray [JNumber 0; JNumber 2]);
                  ("explanation", JString "Python and C++ are programming languages, while HTML and CSS are markup/styling languages.")];
         JObject [("type", JString "single_choice");
                  ("text", JString "What is the most widely used programming language for web development?");
                  ("options", JArray [JString "Python"; JString "JavaScript";
                                      JString "Java"; JString "C++"]);
                  ("correct_answers", JArray [JNumber 1]);
                  ("explanation", JString "JavaScript is the most widely used programming language for web development.")];
         JObject [("type", JString "true_false");
                  ("text", JString "The Earth is flat.");
                  ("options", JArray [JString "True"; JString "False"]);
                  ("correct_answers", JArray [JNumber 1]);
                  ("explanation", JString "The Earth is not flat; it is an oblate spheroid, roughly spherical in shape.")];
         JObject [("type", JString "true_false");
                  ("text", JString "Python is an interpreted programming language.");
                  ("options", JArray [JString "Verdadero"; JString "Falso"]);
                  ("correct_answers", JArray [JNumber 0]);
                  ("explanation", JString "Python is indeed an interpreted programming language.")]])].

(** Every diagnostic a statement pushes satisfies [P]. *)
Definition allPushed {A : Type} (P : Diagnostic -> Prop) (m : Eff A) : Prop :=
  forall d, In d (pushed m) -> P d.

(** The looks of a diagnostic of the callback at [index]: an Error, or the
    Warning on the number of options. *)
Definition questionShape (index : nat) (d : Diagnostic) : Prop :=
  (exists body, d = questionDiagnostic index body Error)
  \/ (exists type, d = questionDiagnostic index (atLeastTwoOptionsBody type) Warning).

(** The looks of any diagnostic of a document: a zero-width range; an Error
    or a Warning of the validator, or an Error of the schema at
    [Range(0, 0, 0, 0)]. *)
Definition diagnosticShape (d : Diagnostic) : Prop :=
  rangeStart (range d) = rangeEnd (range d)
  /\ ((source d = "quiz-validator" /\ (severity d = Error \/ severity d = Warning))
      \/ (source d = "quiz-schema" /\ severity d = Error /\ range d = zeroRange)).

(** "Basic structure validation": the two tests of the [try] block, on the
    values read from [quiz.metadata] and [quiz.questions]. *)
Definition validateMetadataProperty (metadata : jsvalue) (document : TextDocument)
    : Eff unit :=
  if negb (truthy metadata) then
    push (quizDiagnostic (propertyRange document "metadata")
            "Missing required property: metadata" Error)
  else
    match metadata with
    | Some m => validateMetadata m document
    | None => ret tt
    end.

Definition validateQuestionsProperty (questions : jsvalue) (document : TextDocument)
    : Eff unit :=
  if negb (truthy questions) then
    push (quizDiagnostic (propertyRange document "questions")
            "Missing required property: questions" Error)
  else
    match questions with
    | Some q => validateQuestions q document
    | None => ret tt
    end.

(** The diagnostics of the schema for a value: none without a schema. *)
Definition schemaDiagnostics (validate : option (json -> list ErrorObject))
    (quiz : json) (document : TextDocument) : list Diagnostic :=
  match validate with
  | Some check => map (schemaDiagnostic document) (check quiz)
  | None => []
  end.

(** The quoted [name] occurs in [text] at offset [k]. *)
Definition occursAt (name text : string) (k : nat) : Prop :=
  substring k (String.length (quoted name)) text = quoted name.

(** The pattern [items] matches at the start of [text]. *)
Definition matches (items : list RegExpItem) (text : string) : Prop :=
  matchItems items text <> None.

(** The questions of a quiz paired with their positions, as [forEach] visits
    them. *)
Definition indexed (items : list json) : list (nat * json) :=
  combine (seq 0 (length items)) items.

(** * Properties *)

Arguments numberToString : simpl never.
Arguments questionLabel : simpl never.

(** ** The effect monad *)

Lemma pushed_bind {A B : Type} (m : Eff A) (k : A -> Eff B) :
  pushed (bind m k) =
  match outcome m with
  | Normal a => pushed m ++ pushed (k a)
  | Throw _ => pushed m
  end.
Proof. destruct m as [ds [a | e]]; reflexivity. Qed.

Lemma outcome_bind {A B : Type} (m : Eff A) (k : A -> Eff B) :
  outcome (bind m k) =
  match outcome m with
  | Normal a => outcome (k a)
  | Throw e => Throw e
  end.
Proof. destruct m as [ds [a | e]]; reflexivity. Qed.

Lemma bind_normal {A B : Type} (m : Eff A) (k : A -> Eff B) (a : A) :
  outcome m = Normal a ->
  bind m k = (pushed m ++ pushed (k a), outcome (k a)).
Proof. destruct m as [ds [a' | e]]; simpl; intros H; inversion H; reflexivity. Qed.

Lemma bind_ret {A B : Type} (a : A) (k : A -> Eff B) : bind (ret a) k = k a.
Proof. unfold bind, ret. simpl. destruct (k a); reflexivity. Qed.

Lemma bind_eval_normal {A B : Type} (a : A) (k : A -> Eff B) :
  bind (eval (Normal a)) k = k a.
Proof. exact (bind_ret a k). Qed.

Lemma bind_eval_throw {A B : Type} (e : JsError) (k : A -> Eff B) :
  bind (eval (Throw e)) k = ([], Throw e).
Proof. reflexivity. Qed.

Lemma eff_eta {A : Type} (m : Eff A) : m = (pushed m, outcome m).
Proof. destruct m; reflexivity. Qed.

(** ** Messages *)

Lemma append_cancel (p a b : string) : (p ++ a)%string = (p ++ b)%string -> a = b.
Proof.
  induction p as [| c p IH]; simpl; intros H.
  - exact H.
  - injection H as H. exact (IH H).
Qed.

Lemma questionDiagnostic_inj (index : nat) (a b : string) (s t : DiagnosticSeverity) :
  questionDiagnostic index a s = questionDiagnostic index b t -> a = b /\ s = t.
Proof.
  unfold questionDiagnostic, quizDiagnostic. intros H.
  injection H as Hm Hs. split; [exact (append_cancel _ _ _ Hm) | exact Hs].
Qed.

(** ** The parts of the callback *)

Lemma supported_cases (ty : string) :
  In ty supportedTypes ->
  ty = "multiple_choice" \/ ty = "single_choice" \/ ty = "true_false".
Proof. simpl. intuition auto. Qed.

Lemma isSupportedType_string (ty : string) :
  isSupportedType (Some (JString ty)) = true <-> In ty supportedTypes.
Proof.
  unfold isSupportedType. rewrite existsb_exists. split.
  - intros [x [Hin Heq]]. apply String.eqb_eq in Heq. subst. exact Hin.
  - intros Hin. exists ty. split; [exact Hin | apply String.eqb_refl].
Qed.

Lemma supported_truthy (ty : string) :
  In ty supportedTypes -> truthy (Some (JString ty)) = true.
Proof.
  intros H. destruct (supported_cases ty H) as [-> | [-> | ->]]; reflexivity.
Qed.

Lemma validateQuestionText_outcome (text : jsvalue) (index : nat) :
  outcome (validateQuestionText text index) = Normal tt.
Proof.
  unfold validateQuestionText.
  destruct (truthy text); [destruct (isString text) |]; reflexivity.
Qed.

Lemma validateQuestionOptions_outcome (ty : string) (options : jsvalue) (index : nat) :
  outcome (validateQuestionOptions (Some (JString ty)) options index) = Normal tt.
Proof.
  unfold validateQuestionOptions.
  destruct (truthy options); [| reflexivity].
  destruct options as [[| | | | opts |] |]; try reflexivity.
  simpl. destruct (String.eqb ty "true_false").
  - destruct (length opts =? 2)%nat; reflexivity.
  - destruct (length opts <? 2)%nat; reflexivity.
Qed.

(** With a supported type the callback is the text check, the options check
    and the answers check, one after the other. *)
Lemma validateQuestion_supported (members : list (string * json)) (index : nat)
    (ty : string) :
  assoc "type" members = Some (JString ty) ->
  In ty supportedTypes ->
  validateQuestion (JObject members) index =
  (pushed (validateQuestionText (assoc "text" members) index)
   ++ pushed (validateQuestionOptions (Some (JString ty)) (assoc "options" members) index)
   ++ pushed (validateQuestionAnswers (Some (JString ty)) (assoc "options" members)
                (assoc "correct_answers" members) index),
   outcome (validateQuestionAnswers (Some (JString ty)) (assoc "options" members)
              (assoc "correct_answers" members) index)).
Proof.
  intros Hty Hin.
  assert (Hs : isSupportedType (Some (JString ty)) = true)
    by (apply isSupportedType_string; exact Hin).
  unfold validateQuestion. simpl getProp. rewrite Hty.
  rewrite ?bind_eval_normal.
  unfold validateQuestionType. rewrite (supported_truthy ty Hin), Hs. simpl negb. cbv iota.
  rewrite bind_ret.
  rewrite (bind_normal _ _ tt (validateQuestionText_outcome _ _)).
  rewrite ?bind_eval_normal.
  rewrite (bind_normal _ _ tt (validateQuestionOptions_outcome _ _ _)).
  rewrite ?bind_eval_normal.
  unfold pushed, outcome. simpl fst. simpl snd. reflexivity.
Qed.

(** What the text check and the options check can push. *)
Lemma text_diagnostics (text : jsvalue) (index : nat) (d : Diagnostic) :
  In d (pushed (validateQuestionText text index)) ->
  d = questionDiagnostic index "Missing required property: text" Error
  \/ d = questionDiagnostic index "text must be a string" Error.
Proof.
  unfold validateQuestionText.
  destruct (truthy text); [destruct (isString text) |]; simpl; intuition auto.
Qed.

Lemma options_diagnostics (ty : string) (options : jsvalue) (index : nat)
    (d : Diagnostic) :
  In d (pushed (validateQuestionOptions (Some (JString ty)) options index)) ->
  d = questionDiagnostic index "Missing required property: options" Error
  \/ d = questionDiagnostic index "options must be an array" Error
  \/ d = questionDiagnostic index "true_false questions must have exactly 2 options" Error
  \/ d = questionDiagnostic index (atLeastTwoOptionsBody ty) Warning.
Proof.
  unfold validateQuestionOptions. intros H.
  destruct (truthy options); [| cbn in H; intuition auto].
  destruct options as [[| | | | opts |] |]; try solve [cbn in H; intuition auto].
  simpl strictEqString in H. destruct (String.eqb ty "true_false").
  - destruct (length opts =? 2)%nat; cbn in H; intuition auto.
  - destruct (length opts <? 2)%nat; cbn in H; intuition auto.
Qed.

(** Two diagnostics of one question with different bodies or severities
    differ. *)
Ltac distinct_diagnostic H :=
  apply questionDiagnostic_inj in H;
  let Hb := fresh "Hb" in
  let Hs := fresh "Hs" in
  destruct H as [Hb Hs];
  first [discriminate Hs | discriminate Hb].

(** C1 (the claim's case on the code): for a question of a supported type
    whose [correct_answers] is [null], the callback pushes
    "Question <i>: Missing required property: correct_answers" and never
    "Question <i>: correct_answers cannot be null": [!null] holds, so the
    first test of the chain wins and the [=== null] test after it is never
    reached with [null]. *)
Theorem null_correct_answers_reported_missing
    (members : list (string * json)) (index : nat) (ty : string) :
  assoc "type" members = Some (JString ty) ->
  In ty supportedTypes ->
  assoc "correct_answers" members = Some JNull ->
  In (questionDiagnostic index "Missing required property: correct_answers" Error)
     (pushed (validateQuestion (JObject members) index))
  /\ ~ In (questionDiagnostic index "correct_answers cannot be null" Error)
          (pushed (validateQuestion (JObject members) index)).
Proof.
  intros Hty Hin Hnull.
  rewrite (validateQuestion_supported members index ty Hty Hin), Hnull.
  unfold pushed at 1 5. simpl fst.
  change (pushed (validateQuestionAnswers (Some (JString ty))
                    (assoc "options" members) (Some JNull) index))
    with [questionDiagnostic index "Missing required property: correct_answers" Error].
  split.
  - rewrite !in_app_iff. right. right. left. reflexivity.
  - rewrite !in_app_iff. intros [H | [H | [H | []]]].
    + apply text_diagnostics in H. destruct H as [H | H]; distinct_diagnostic H.
    + apply options_diagnostics in H.
      destruct H as [H | [H | [H | H]]]; distinct_diagnostic H.
    + distinct_diagnostic H.
Qed.

Lemma null_correct_answers_reported_missing_witness :
  pushed (validateQuestion nullAnswersQuestion 0)
  = [questionDiagnostic 0 "Missing required property: correct_answers" Error]
  /\ In (questionDiagnostic 0 "Missing required property: correct_answers" Error)
        (pushed (validateQuestion nullAnswersQuestion 0))
  /\ ~ In (questionDiagnostic 0 "correct_answers cannot be null" Error)
          (pushed (validateQuestion nullAnswersQuestion 0)).
Proof.
  split; [reflexivity |].
  apply (null_correct_answers_reported_missing _ 0 "multiple_choice");
    [reflexivity | simpl; auto | reflexivity].
Defined.

(** ** Questions of an unsupported type *)

(** C2 (as the claim states it, refuted): a question of type [essay] without
    [options] and without [correct_answers] gets the invalid type diagnostic
    and nothing else; no presence check of [options] or [correct_answers]
    is run. *)
Lemma unsupported_type_runs_no_shape_check :
  validateQuestion essayQuestion 0
  = ([questionDiagnostic 0 (invalidTypeBody "essay") Error], Normal tt)
  /\ ~ In (questionDiagnostic 0 "Missing required property: options" Error)
          (pushed (validateQuestion essayQuestion 0))
  /\ ~ In (questionDiagnostic 0 "Missing required property: correct_answers" Error)
          (pushed (validateQuestion essayQuestion 0)).
Proof.
  split; [reflexivity |].
  split; intros [H | []]; discriminate H.
Qed.

(** C2 (amended): for a question whose [type] is truthy but not one of the
    three supported strings (and converts to a string), the callback pushes
    the invalid type diagnostic and then only what the text check
    pushes: the checks of [options] and [correct_answers], shape checks
    included, are all skipped. *)
Theorem unsupported_type_only_type_and_text
    (members : list (string * json)) (index : nat) (type : json) (shown : string) :
  assoc "type" members = Some type ->
  truthy (Some type) = true ->
  isSupportedType (Some type) = false ->
  toString type = Normal shown ->
  validateQuestion (JObject members) index
  = (questionDiagnostic index (invalidTypeBody shown) Error
     :: pushed (validateQuestionText (assoc "text" members) index), Normal tt)
  /\ forall d, In d (pushed (validateQuestion (JObject members) index)) ->
       d = questionDiagnostic index (invalidTypeBody shown) Error
       \/ d = questionDiagnostic index "Missing required property: text" Error
       \/ d = questionDiagnostic index "text must be a string" Error.
Proof.
  intros Hty Htruthy Hunsupported Hshown.
  assert (E : validateQuestion (JObject members) index
              = (questionDiagnostic index (invalidTypeBody shown) Error
                 :: pushed (validateQuestionText (assoc "text" members) index),
                 Normal tt)).
  { unfold validateQuestion. simpl getProp. rewrite Hty.
    rewrite ?bind_eval_normal.
    unfold validateQuestionType. rewrite Htruthy, Hunsupported. simpl negb. cbv iota.
    unfold templateString. rewrite Hshown. rewrite bind_eval_normal.
    unfold push at 1. unfold bind at 1.
    rewrite ?bind_eval_normal.
    rewrite (bind_normal _ _ tt (validateQuestionText_outcome _ _)).
    simpl. rewrite app_nil_r. reflexivity. }
  split; [exact E |].
  rewrite E. simpl. intros d [H | H].
  - left. symmetry. exact H.
  - right. apply (text_diagnostics _ _ _ H).
Qed.

Lemma unsupported_type_only_type_and_text_witness :
  validateQuestion essayQuestion 0
  = (questionDiagnostic 0 (invalidTypeBody "essay") Error
     :: pushed (validateQuestionText (assoc "text" essayMembers) 0), Normal tt)
  /\ forall d, In d (pushed (validateQuestion essayQuestion 0)) ->
       d = questionDiagnostic 0 (invalidTypeBody "essay") Error
       \/ d = questionDiagnostic 0 "Missing required property: text" Error
       \/ d = questionDiagnostic 0 "text must be a string" Error.
Proof.
  apply (unsupported_type_only_type_and_text essayMembers 0 (JString "essay") "essay");
    reflexivity.
Defined.

(** ** Loops *)

Lemma forOf_normal {A : Type} (body : A -> Eff unit) (l : list A) :
  (forall x, In x l -> outcome (body x) = Normal tt) ->
  forOf body l = (flat_map (fun x => pushed (body x)) l, Normal tt).
Proof.
  induction l as [| x rest IH]; intros Hbody.
  - reflexivity.
  - simpl forOf. rewrite (bind_normal _ _ tt (Hbody x (or_introl eq_refl))).
    rewrite IH by (intros y Hy; apply Hbody; right; exact Hy).
    reflexivity.
Qed.

(** Whatever a loop pushes was pushed by its body on some element, also when
    the loop is cut short by a throw. *)
Lemma forOf_pushed_in {A : Type} (body : A -> Eff unit) (l : list A) (d : Diagnostic) :
  In d (pushed (forOf body l)) -> exists x, In x l /\ In d (pushed (body x)).
Proof.
  induction l as [| x rest IH]; simpl forOf; intros H.
  - destruct H.
  - rewrite pushed_bind in H. destruct (outcome (body x)) as [[] | e].
    + apply in_app_or in H. destruct H as [H | H].
      * exists x. split; [left; reflexivity | exact H].
      * destruct (IH H) as [y [Hy Hd]]. exists y. split; [right; exact Hy | exact Hd].
    + exists x. split; [left; reflexivity | exact H].
Qed.

(** ** Metadata *)

Lemma validateMetadataField_outcome (metadata : json) (document : TextDocument)
    (field : string) (value : jsvalue) :
  getProp metadata field = Normal value ->
  validateMetadataField metadata document field
  = (if negb (truthy value) then [missingFieldDiagnostic document field]
     else if negb (isString value) then [fieldTypeDiagnostic document field]
     else [],
     Normal tt).
Proof.
  intros Hget. unfold validateMetadataField. rewrite Hget, bind_eval_normal.
  destruct (truthy value); [destruct (isString value) |]; reflexivity.
Qed.

(** A value that is not [null] has every property read answer normally. *)
Lemma getProp_normal (v : json) (name : string) :
  v <> JNull -> exists value, getProp v name = Normal value.
Proof.
  intros Hv. destruct v; try (eexists; reflexivity). contradiction Hv; reflexivity.
Qed.

Lemma getProp_not_null (v : json) (name : string) (value : jsvalue) :
  getProp v name = Normal value -> v <> JNull.
Proof. intros H ->. discriminate H. Qed.

Lemma missing_field_inj (document : TextDocument) (f g : string) :
  missingFieldDiagnostic document f = missingFieldDiagnostic document g -> f = g.
Proof.
  unfold missingFieldDiagnostic, quizDiagnostic. intros H.
  assert (Hm := f_equal message H). simpl in Hm.
  exact (append_cancel "Missing required property: metadata." f g Hm).
Qed.

Lemma field_type_inj (document : TextDocument) (f g : string) :
  In f requiredFields -> In g requiredFields ->
  fieldTypeDiagnostic document f = fieldTypeDiagnostic document g -> f = g.
Proof.
  unfold fieldTypeDiagnostic, quizDiagnostic. intros Hf Hg H.
  assert (Hm := f_equal message H). simpl in Hm. clear H.
  simpl in Hf, Hg.
  destruct Hf as [<- | [<- | [<- | [<- | []]]]];
    destruct Hg as [<- | [<- | [<- | [<- | []]]]];
    first [reflexivity | discriminate Hm].
Qed.

Lemma missing_field_not_type (document : TextDocument) (f g : string) :
  missingFieldDiagnostic document f <> fieldTypeDiagnostic document g.
Proof.
  unfold missingFieldDiagnostic, fieldTypeDiagnostic, quizDiagnostic. intros H.
  assert (Hm := f_equal message H). simpl in Hm. discriminate Hm.
Qed.

(** What the metadata loop pushes: what its body pushes on each field. *)
Lemma validateMetadata_pushed (metadata : json) (document : TextDocument) :
  metadata <> JNull ->
  validateMetadata metadata document
  = (flat_map (fun field => pushed (validateMetadataField metadata document field))
       requiredFields, Normal tt).
Proof.
  intros Hm. unfold validateMetadata. apply forOf_normal. intros field _.
  destruct (getProp_normal metadata field Hm) as [value Hget].
  rewrite (validateMetadataField_outcome _ _ _ _ Hget). reflexivity.
Qed.

Lemma validateMetadata_diagnostics (metadata : json) (document : TextDocument) :
  metadata <> JNull ->
  pushed (validateMetadata metadata document)
  = flat_map (fun field => pushed (validateMetadataField metadata document field))
      requiredFields.
Proof. intros Hm. rewrite (validateMetadata_pushed _ _ Hm). reflexivity. Qed.

(** C3 (as the claim states it, refuted): a [title] that is the number [0] is
    present and not a string, yet the validator reports it missing and does
    not report its type. *)
Lemma zero_title_reported_missing :
  validateMetadata zeroTitleMetadata sampleDocument
  = ([missingFieldDiagnostic sampleDocument "title"], Normal tt)
  /\ ~ In (fieldTypeDiagnostic sampleDocument "title")
          (pushed (validateMetadata zeroTitleMetadata sampleDocument)).
Proof.
  split; [reflexivity |].
  intros [H | []]. exact (missing_field_not_type _ _ _ H).
Qed.

(** C3 (amended): for each of [title], [description], [version], [author],
    with [value] what the metadata holds for it: a truthy [value] that is not
    a string gets "metadata.<field> must be a string" and not the missing
    property diagnostic; a falsy [value] (absent, [null], [false], [0], the
    empty string) gets "Missing required property: metadata.<field>" and not
    the type diagnostic; a non-empty string gets neither.  The two are never
    pushed together for one field. *)
Theorem metadata_field_checked_by_truthiness
    (metadata : json) (document : TextDocument) (field : string) (value : jsvalue) :
  In field requiredFields ->
  getProp metadata field = Normal value ->
  let ds := pushed (validateMetadata metadata document) in
  (truthy value = true -> isString value = false ->
     In (fieldTypeDiagnostic document field) ds
     /\ ~ In (missingFieldDiagnostic document field) ds)
  /\ (truthy value = false ->
     In (missingFieldDiagnostic document field) ds
     /\ ~ In (fieldTypeDiagnostic document field) ds)
  /\ (truthy value = true -> isString value = true ->
     ~ In (missingFieldDiagnostic document field) ds
     /\ ~ In (fieldTypeDiagnostic document field) ds)
  /\ ~ (In (missingFieldDiagnostic document field) ds
        /\ In (fieldTypeDiagnostic document field) ds).
Proof.
  intros Hfield Hget ds.
  assert (Hm : metadata <> JNull) by exact (getProp_not_null _ _ _ Hget).
  assert (Hmissing : In (missingFieldDiagnostic document field) ds
                     <-> truthy value = false).
  { unfold ds. rewrite (validateMetadata_diagnostics _ _ Hm).
    rewrite in_flat_map. split.
    - intros [g [Hg Hin]].
      destruct (getProp_normal metadata g Hm) as [w Hw].
      rewrite (validateMetadataField_outcome _ _ _ _ Hw) in Hin. unfold pushed in Hin.
      simpl fst in Hin.
      destruct (truthy w) eqn:Tw; [destruct (isString w) |]; simpl in Hin.
      + destruct Hin.
      + destruct Hin as [Hin | []]. symmetry in Hin.
        destruct (missing_field_not_type _ _ _ Hin).
      + destruct Hin as [Hin | []]. apply missing_field_inj in Hin. subst g.
        rewrite Hget in Hw. injection Hw as <-. exact Tw.
    - intros Tv. exists field. split; [exact Hfield |].
      rewrite (validateMetadataField_outcome _ _ _ _ Hget), Tv. left. reflexivity. }
  assert (Htype : In (fieldTypeDiagnostic document field) ds
                  <-> truthy value = true /\ isString value = false).
  { unfold ds. rewrite (validateMetadata_diagnostics _ _ Hm).
    rewrite in_flat_map. split.
    - intros [g [Hg Hin]].
      destruct (getProp_normal metadata g Hm) as [w Hw].
      rewrite (validateMetadataField_outcome _ _ _ _ Hw) in Hin. unfold pushed in Hin.
      simpl fst in Hin.
      destruct (truthy w) eqn:Tw; [destruct (isString w) eqn:Sw |]; simpl in Hin.
      + destruct Hin.
      + destruct Hin as [Hin | []]. apply field_type_inj in Hin; try assumption.
        subst g. rewrite Hget in Hw. injection Hw as <-. split; assumption.
      + destruct Hin as [Hin | []]. destruct (missing_field_not_type _ _ _ Hin).
    - intros [Tv Sv]. exists field. split; [exact Hfield |].
      rewrite (validateMetadataField_outcome _ _ _ _ Hget), Tv, Sv. left. reflexivity. }
  repeat split.
  - apply Htype. split; assumption.
  - rewrite Hmissing. rewrite H. discriminate.
  - apply Hmissing. assumption.
  - rewrite Htype. rewrite H. intros [T _]. discriminate T.
  - rewrite Hmissing. rewrite H. discriminate.
  - rewrite Htype. rewrite H0. intros [_ S]. discriminate S.
  - rewrite Hmissing, Htype. intros [F [T _]]. rewrite F in T. discriminate T.
Qed.

Lemma metadata_field_checked_by_truthiness_witness :
  truthy (Some (JNumber 123)) = true
  /\ isString (Some (JNumber 123)) = false
  /\ In (fieldTypeDiagnostic sampleDocument "version")
        (pushed (validateMetadata numericVersionMetadata sampleDocument))
  /\ ~ In (missingFieldDiagnostic sampleDocument "version")
          (pushed (validateMetadata numericVersionMetadata sampleDocument)).
Proof.
  split; [reflexivity |]. split; [reflexivity |].
  apply (metadata_field_checked_by_truthiness numericVersionMetadata sampleDocument
           "version" (Some (JNumber 123))).
  - simpl. auto.
  - reflexivity.
  - reflexivity.
  - reflexivity.
Defined.

(** ** The diagnostic collection *)

Lemma collectionGet_set (key : string) (ds : list Diagnostic) (c : DiagnosticCollection) :
  collectionGet key (collectionSet key ds c) = Some ds.
Proof.
  induction c as [| [k old] rest IH]; simpl.
  - rewrite String.eqb_refl. reflexivity.
  - destruct (String.eqb k key) eqn:E; simpl; rewrite E; [reflexivity | exact IH].
Qed.

Lemma collectionSet_set (key : string) (ds ds' : list Diagnostic)
    (c : DiagnosticCollection) :
  collectionSet key ds' (collectionSet key ds c) = collectionSet key ds' c.
Proof.
  induction c as [| [k old] rest IH]; simpl.
  - rewrite String.eqb_refl. reflexivity.
  - destruct (String.eqb k key) eqn:E; simpl; rewrite E; [reflexivity |].
    rewrite IH. reflexivity.
Qed.

(** ** Whole documents *)

Lemma forOf_push {A : Type} (f : A -> Diagnostic) (l : list A) :
  forOf (fun x => push (f x)) l = (map f l, Normal tt).
Proof.
  induction l as [| x rest IH]; simpl forOf.
  - reflexivity.
  - rewrite IH. reflexivity.
Qed.

Lemma nonempty_truthy (s : string) : s <> "" -> truthy (Some (JString s)) = true.
Proof.
  intros Hs. simpl. destruct (String.eqb s "") eqn:E; [| reflexivity].
  apply String.eqb_eq in E. contradiction.
Qed.

(** Metadata whose four required fields are non-empty strings passes. *)
Lemma validateMetadata_valid (mm : list (string * json)) (document : TextDocument)
    (title description version author : string) :
  assoc "title" mm = Some (JString title) -> title <> "" ->
  assoc "description" mm = Some (JString description) -> description <> "" ->
  assoc "version" mm = Some (JString version) -> version <> "" ->
  assoc "author" mm = Some (JString author) -> author <> "" ->
  validateMetadata (JObject mm) document = ([], Normal tt).
Proof.
  intros Ht Nt Hd Nd Hv Nv Ha Na.
  rewrite validateMetadata_pushed by discriminate.
  unfold requiredFields, flat_map.
  rewrite !(validateMetadataField_outcome (JObject mm) document _ _ eq_refl).
  rewrite Ht, Hd, Hv, Ha.
  rewrite !nonempty_truthy by assumption. reflexivity.
Qed.

Section ValidatorProperties.

Variable JSON_parse : string -> completion json.
Variable validate : option (json -> list ErrorObject).

Lemma validateSchema_diagnostics (quiz : json) (document : TextDocument) :
  validateSchema validate quiz document
  = (match validate with
     | Some check => map (schemaDiagnostic document) (check quiz)
     | None => []
     end, Normal tt).
Proof.
  unfold validateSchema. destruct validate as [check |]; [| reflexivity].
  apply forOf_push.
Qed.

(** C4: when [JSON.parse] throws on the text of a [.quiz] document, the
    validator publishes exactly one diagnostic for it: an Error of the
    validator whose message is "Invalid JSON: " followed by the parser's
    message.  No structural, rule or schema diagnostic comes with it. *)
Theorem parse_failure_single_diagnostic
    (document : TextDocument) (diagnosticCollection : DiagnosticCollection)
    (error : JsError) :
  endsWith (fileName document) ".quiz" = true ->
  JSON_parse (getText document) = Throw error ->
  collectDiagnostics JSON_parse validate document
  = [mkDiagnostic zeroRange ("Invalid JSON: " ++ errorMessage error) Error
       "quiz-validator"]
  /\ collectionGet (uri document)
       (validateQuizFile JSON_parse validate document diagnosticCollection)
     = Some [mkDiagnostic zeroRange ("Invalid JSON: " ++ errorMessage error) Error
               "quiz-validator"].
Proof.
  intros Hname Hparse.
  assert (E : collectDiagnostics JSON_parse validate document
              = [mkDiagnostic zeroRange ("Invalid JSON: " ++ errorMessage error) Error
                   "quiz-validator"]).
  { unfold collectDiagnostics, validateText. rewrite Hparse, bind_eval_throw.
    reflexivity. }
  split; [exact E |].
  unfold validateQuizFile. rewrite Hname. simpl negb. cbv iota.
  rewrite collectionGet_set, E. reflexivity.
Qed.

(** C9: validating a document again changes nothing: the collection after
    the second call is the collection after the first, and the list
    published under the document's uri is the same list, which for a [.quiz]
    document is the one computed from the text alone, whatever was published
    before. *)
Theorem validation_deterministic
    (document : TextDocument) (diagnosticCollection other : DiagnosticCollection) :
  let once := validateQuizFile JSON_parse validate document diagnosticCollection in
  let twice := validateQuizFile JSON_parse validate document once in
  twice = once
  /\ collectionGet (uri document) twice = collectionGet (uri document) once
  /\ (if endsWith (fileName document) ".quiz"
      then collectionGet (uri document) once
           = Some (collectDiagnostics JSON_parse validate document)
           /\ collectionGet (uri document)
                (validateQuizFile JSON_parse validate document other)
              = collectionGet (uri document) once
      else once = diagnosticCollection).
Proof.
  intros once twice.
  assert (E : twice = once).
  { unfold twice, once, validateQuizFile.
    destruct (endsWith (fileName document) ".quiz"); simpl negb; cbv iota.
    - apply collectionSet_set.
    - reflexivity. }
  split; [exact E |]. split; [rewrite E; reflexivity |].
  unfold once, validateQuizFile.
  destruct (endsWith (fileName document) ".quiz"); simpl negb; cbv iota.
  - rewrite !collectionGet_set. split; reflexivity.
  - reflexivity.
Qed.

(** A document with valid metadata: what remains is the questions and the
    schema. *)
Lemma validateText_valid_metadata (document : TextDocument)
    (qm mm : list (string * json)) (title description version author : string)
    (questions : json) :
  JSON_parse (getText document) = Normal (JObject qm) ->
  assoc "metadata" qm = Some (JObject mm) ->
  assoc "title" mm = Some (JString title) -> title <> "" ->
  assoc "description" mm = Some (JString description) -> description <> "" ->
  assoc "version" mm = Some (JString version) -> version <> "" ->
  assoc "author" mm = Some (JString author) -> author <> "" ->
  assoc "questions" qm = Some questions ->
  truthy (Some questions) = true ->
  validateText JSON_parse validate document
  = (validateQuestions questions document ;; validateSchema validate (JObject qm) document).
Proof.
  intros Hparse Hmeta Ht Nt Hd Nd Hv Nv Ha Na Hq Tq.
  unfold validateText. rewrite Hparse, bind_eval_normal.
  simpl getProp. rewrite Hmeta, bind_eval_normal. simpl truthy. simpl negb. cbv iota.
  rewrite (validateMetadata_valid mm document _ _ _ _ Ht Nt Hd Nd Hv Nv Ha Na).
  change (@pair (list Diagnostic) (completion unit) [] (Normal tt)) with (ret tt).
  rewrite bind_ret, Hq, bind_eval_normal, Tq. reflexivity.
Qed.

(** C10: a document whose metadata holds the four required fields as
    non-empty strings and whose [questions] is the empty array gets no
    diagnostic from the structural checks and the question rules: the
    diagnostics are those of the schema alone, and none without a schema.
    No rule asks for a first question. *)
Theorem empty_quiz_no_diagnostics (document : TextDocument)
    (qm mm : list (string * json)) (title description version author : string) :
  JSON_parse (getText document) = Normal (JObject qm) ->
  assoc "metadata" qm = Some (JObject mm) ->
  assoc "title" mm = Some (JString title) -> title <> "" ->
  assoc "description" mm = Some (JString description) -> description <> "" ->
  assoc "version" mm = Some (JString version) -> version <> "" ->
  assoc "author" mm = Some (JString author) -> author <> "" ->
  assoc "questions" qm = Some (JArray []) ->
  collectDiagnostics JSON_parse validate document
  = match validate with
    | Some check => map (schemaDiagnostic document) (check (JObject qm))
    | None => []
    end.
Proof.
  intros Hparse Hmeta Ht Nt Hd Nd Hv Nv Ha Na Hq.
  unfold collectDiagnostics.
  rewrite (validateText_valid_metadata document qm mm _ _ _ _ (JArray [])
             Hparse Hmeta Ht Nt Hd Nd Hv Nv Ha Na Hq eq_refl).
  unfold validateQuestions, forEach, forEachFrom. rewrite bind_ret.
  rewrite validateSchema_diagnostics. reflexivity.
Qed.

End ValidatorProperties.

Lemma parse_failure_single_diagnostic_witness :
  collectDiagnostics sampleParse None brokenDocument
  = [mkDiagnostic zeroRange "Invalid JSON: Unexpected end of JSON input" Error
       "quiz-validator"]
  /\ collectionGet (uri brokenDocument)
       (validateQuizFile sampleParse None brokenDocument [])
     = Some [mkDiagnostic zeroRange "Invalid JSON: Unexpected end of JSON input" Error
               "quiz-validator"].
Proof.
  apply (parse_failure_single_diagnostic sampleParse None brokenDocument []
           (SyntaxError "Unexpected end of JSON input")).
  - reflexivity.
  - reflexivity.
Defined.

Lemma empty_quiz_no_diagnostics_witness :
  collectDiagnostics sampleParse None emptyDocument = [].
Proof.
  apply (empty_quiz_no_diagnostics sampleParse None emptyDocument
           [("metadata", sampleMetadata); ("questions", JArray [])]
           [("title", JString "Sample Quiz");
            ("description", JString "A comprehensive quiz example with all question types");
            ("version", JString "1.0.0");
            ("author", JString "Quiz Author")]
           "Sample Quiz" "A comprehensive quiz example with all question types"
           "1.0.0" "Quiz Author");
    first [reflexivity | discriminate].
Defined.

(** C7: a [.quiz] document that parses to valid metadata (the four required
    fields non-empty strings) and one [multiple_choice] question with a
    non-empty text, four string options and [correct_answers: [1]] gets no
    diagnostic at all when no schema is loaded: the list published for it is
    empty. *)
Theorem minimal_valid_document_no_diagnostics
    (JSON_parse : string -> completion json) (document : TextDocument)
    (qm mm q : list (string * json))
    (title description version author text o1 o2 o3 o4 : string) :
  endsWith (fileName document) ".quiz" = true ->
  JSON_parse (getText document) = Normal (JObject qm) ->
  assoc "metadata" qm = Some (JObject mm) ->
  assoc "title" mm = Some (JString title) -> title <> "" ->
  assoc "description" mm = Some (JString description) -> description <> "" ->
  assoc "version" mm = Some (JString version) -> version <> "" ->
  assoc "author" mm = Some (JString author) -> author <> "" ->
  assoc "questions" qm = Some (JArray [JObject q]) ->
  assoc "type" q = Some (JString "multiple_choice") ->
  assoc "text" q = Some (JString text) -> text <> "" ->
  assoc "options" q = Some (JArray [JString o1; JString o2; JString o3; JString o4]) ->
  assoc "correct_answers" q = Some (JArray [JNumber 1]) ->
  collectDiagnostics JSON_parse None document = []
  /\ forall diagnosticCollection,
       collectionGet (uri document)
         (validateQuizFile JSON_parse None document diagnosticCollection)
       = Some [].
Proof.
  intros Hname Hparse Hmeta Ht Nt Hd Nd Hv Nv Ha Na Hq Hty Htext Ntext Hopts Hans.
  assert (Hquestion : validateQuestion (JObject q) 0 = ([], Normal tt)).
  { rewrite (validateQuestion_supported q 0 "multiple_choice" Hty) by (simpl; auto).
    rewrite Htext, Hopts, Hans.
    unfold validateQuestionText. rewrite (nonempty_truthy text Ntext). reflexivity. }
  assert (E : collectDiagnostics JSON_parse None document = []).
  { unfold collectDiagnostics.
    rewrite (validateText_valid_metadata JSON_parse None document qm mm _ _ _ _
               (JArray [JObject q]) Hparse Hmeta Ht Nt Hd Nd Hv Nv Ha Na Hq eq_refl).
    unfold validateQuestions, forEach, forEachFrom. rewrite Hquestion.
    reflexivity. }
  split; [exact E |].
  intros diagnosticCollection. unfold validateQuizFile. rewrite Hname.
  simpl negb. cbv iota. rewrite collectionGet_set, E. reflexivity.
Qed.

Lemma minimal_valid_document_no_diagnostics_witness :
  collectDiagnostics sampleParse None minimalDocument = []
  /\ forall diagnosticCollection,
       collectionGet (uri minimalDocument)
         (validateQuizFile sampleParse None minimalDocument diagnosticCollection)
       = Some [].
Proof.
  apply (minimal_valid_document_no_diagnostics sampleParse minimalDocument
           [("metadata", sampleMetadata); ("questions", JArray [capitalQuestion])]
           [("title", JString "Sample Quiz");
            ("description", JString "A comprehensive quiz example with all question types");
            ("version", JString "1.0.0");
            ("author", JString "Quiz Author")]
           [("type", JString "multiple_choice");
            ("text", JString "What is the capital of France?");
            ("options", JArray [JString "Madrid"; JString "Paris";
                                JString "Rome"; JString "Berlin"]);
            ("correct_answers", JArray [JNumber 1])]
           "Sample Quiz" "A comprehensive quiz example with all question types"
           "1.0.0" "Quiz Author" "What is the capital of France?"
           "Madrid" "Paris" "Rome" "Berlin");
    first [reflexivity | discriminate].
Defined.

(** ** The checks of [correct_answers] *)

Lemma isInvalidIndex_false (v : json) (optionsLength : nat) :
  isInvalidIndex v optionsLength = false <-> inRange v optionsLength.
Proof.
  unfold inRange, isInvalidIndex. split.
  - destruct v as [| b | n | s | items | members]; try discriminate. intros H.
    apply orb_false_iff in H. destruct H as [H0 Hn].
    unfold numberLtZero, numberGeLength in H0, Hn.
    destruct n as [[q | negative] text]; cbn [valueOf] in H0, Hn.
    + exists (mkNumber (Finite q) text), q.
      split; [reflexivity |]. split; [reflexivity |].
      apply negb_false_iff in H0. apply Qle_bool_iff in H0. split; [exact H0 |].
      apply Qnot_le_lt. intros Hle. apply Qle_bool_iff in Hle.
      rewrite Hle in Hn. discriminate Hn.
    + destruct negative; discriminate.
  - intros [n [q [-> [Hv [H0 Hn]]]]]. unfold numberLtZero, numberGeLength. rewrite Hv.
    apply orb_false_iff. split.
    + apply negb_false_iff. apply Qle_bool_iff. exact H0.
    + destruct (Qle_bool (inject_Z (Z.of_nat optionsLength)) q) eqn:E; [| reflexivity].
      apply Qle_bool_iff in E. destruct (Qlt_not_le _ _ Hn E).
Qed.

Lemma isInvalidIndex_true (v : json) (optionsLength : nat) :
  isInvalidIndex v optionsLength = true <-> ~ inRange v optionsLength.
Proof.
  rewrite <- isInvalidIndex_false. destruct (isInvalidIndex v optionsLength); split;
    intros H; try reflexivity; try discriminate; try (intros H'; discriminate H').
  contradiction H; reflexivity.
Qed.

Lemma checkAnswerIndex_valid (index optionsLength : nat) (v : json) :
  isInvalidIndex v optionsLength = false ->
  checkAnswerIndex index optionsLength v = ([], Normal tt).
Proof. intros H. unfold checkAnswerIndex. rewrite H. reflexivity. Qed.

Lemma checkAnswerIndex_invalid (index optionsLength : nat) (v : json) (shown : string) :
  isInvalidIndex v optionsLength = true ->
  toString v = Normal shown ->
  checkAnswerIndex index optionsLength v
  = ([questionDiagnostic index (invalidIndexBody shown optionsLength) Error], Normal tt).
Proof.
  intros H Hs. unfold checkAnswerIndex. rewrite H, Hs, bind_eval_normal. reflexivity.
Qed.

Lemma checkAnswerIndex_diagnostics (index optionsLength : nat) (v : json)
    (d : Diagnostic) :
  In d (pushed (checkAnswerIndex index optionsLength v)) ->
  exists shown, d = questionDiagnostic index (invalidIndexBody shown optionsLength) Error.
Proof.
  unfold checkAnswerIndex. destruct (isInvalidIndex v optionsLength); [| intros []].
  destruct (toString v) as [shown | e]; [| intros []].
  rewrite bind_eval_normal. intros [H | []]. exists shown. symmetry. exact H.
Qed.

Lemma checkAnswerCount_outcome (ty : string) (answers : list json) (index : nat) :
  outcome (checkAnswerCount (Some (JString ty)) answers index) = Normal tt.
Proof.
  unfold checkAnswerCount.
  destruct (strictEqString _ "single_choice" || strictEqString _ "true_false");
    [| reflexivity].
  destruct (length answers =? 1)%nat; reflexivity.
Qed.

Lemma checkAnswerCount_pushed (ty : string) (answers : list json) (index : nat) :
  pushed (checkAnswerCount (Some (JString ty)) answers index)
  = if (String.eqb ty "single_choice" || String.eqb ty "true_false")
       && negb (length answers =? 1)%nat
    then [questionDiagnostic index (exactlyOneAnswerBody ty) Error]
    else [].
Proof.
  unfold checkAnswerCount. simpl strictEqString.
  destruct (String.eqb ty "single_choice" || String.eqb ty "true_false");
    [| reflexivity].
  destruct (length answers =? 1)%nat; reflexivity.
Qed.

Lemma checkTrueFalseAnswer_outcome (type : jsvalue) (answers : list json) (index : nat) :
  outcome (checkTrueFalseAnswer type answers index) = Normal tt.
Proof.
  unfold checkTrueFalseAnswer.
  destruct (strictEqString type "true_false" && (length answers =? 1)%nat);
    [| reflexivity].
  destruct answers as [| v rest]; [reflexivity |].
  destruct (strictNeqNumber v 0 && strictNeqNumber v 1); reflexivity.
Qed.

Lemma checkTrueFalseAnswer_diagnostics (type : jsvalue) (answers : list json)
    (index : nat) (d : Diagnostic) :
  In d (pushed (checkTrueFalseAnswer type answers index)) ->
  d = questionDiagnostic index
        "true_false questions must have correct_answers index 0 or 1" Error.
Proof.
  unfold checkTrueFalseAnswer.
  destruct (strictEqString type "true_false" && (length answers =? 1)%nat);
    [| intros []].
  destruct answers as [| v rest]; [intros [] |].
  destruct (strictNeqNumber v 0 && strictNeqNumber v 1); [| intros []].
  intros [H | []]. symmetry. exact H.
Qed.

(** On a non-empty array of answers the answers check is the count check,
    then, when [options] is an array, the loop over the answers and the
    true_false check. *)
Lemma validateQuestionAnswers_array (type : jsvalue) (opts answers : list json)
    (index : nat) :
  answers <> [] ->
  validateQuestionAnswers type (Some (JArray opts)) (Some (JArray answers)) index
  = (checkAnswerCount type answers index ;;
     forOf (checkAnswerIndex index (length opts)) answers ;;
     checkTrueFalseAnswer type answers index).
Proof.
  intros Hne. unfold validateQuestionAnswers. simpl truthy. simpl isNull. simpl negb.
  cbv iota. destruct answers as [| v rest]; [contradiction Hne; reflexivity |].
  reflexivity.
Qed.

(** Whatever the answers check pushes on an array of answers is a count
    diagnostic, an index diagnostic, the true_false diagnostic or the empty
    array diagnostic. *)
Lemma answers_diagnostics (ty : string) (options : jsvalue) (answers : list json)
    (index : nat) (d : Diagnostic) :
  In d (pushed (validateQuestionAnswers (Some (JString ty)) options
                  (Some (JArray answers)) index)) ->
  (d = questionDiagnostic index "correct_answers cannot be empty" Error
   /\ answers = [])
  \/ (answers <> []
      /\ In d (pushed (checkAnswerCount (Some (JString ty)) answers index)))
  \/ (exists shown n, d = questionDiagnostic index (invalidIndexBody shown n) Error)
  \/ In d (pushed (checkTrueFalseAnswer (Some (JString ty)) answers index)).
Proof.
  unfold validateQuestionAnswers. simpl truthy. simpl isNull. simpl negb. cbv iota.
  destruct answers as [| v rest].
  - simpl. intros [H | []]. left. split; [symmetry; exact H | reflexivity].
  - change (length (v :: rest) =? 0)%nat with false. cbv iota.
    rewrite pushed_bind, checkAnswerCount_outcome. intros H.
    apply in_app_or in H.
    destruct H as [H | H]; [right; left; split; [discriminate | exact H] |].
    destruct options as [[| | | | opts |] |]; try destruct H.
    rewrite pushed_bind in H.
    destruct (outcome (forOf (checkAnswerIndex index (length opts)) (v :: rest)))
      as [[] | e].
    + apply in_app_or in H. destruct H as [H | H].
      * apply forOf_pushed_in in H. destruct H as [x [_ H]].
        apply checkAnswerIndex_diagnostics in H. destruct H as [shown H].
        right. right. left. exists shown, (length opts). exact H.
      * right. right. right. exact H.
    + apply forOf_pushed_in in H. destruct H as [x [_ H]].
      apply checkAnswerIndex_diagnostics in H. destruct H as [shown H].
      right. right. left. exists shown, (length opts). exact H.
Qed.





(** The loop cut short, run: with three options and the answers
    [[0, 7, {"toString": 1}, 5]] the callback pushes the diagnostic of [7]
    and throws at the object; the out-of-range [5] gets no diagnostic. *)
Example range_loop_cut_short :
  validateQuestion (JObject cutShortMembers) 0
  = ([questionDiagnostic 0 (invalidIndexBody "7" 3) Error],
     Throw (TypeError "Cannot convert object to primitive value")).
Proof. reflexivity. Qed.

(** The repository's test "invalid correct_answers index", run: with three
    options and the answers [[0, 5]] the callback pushes the diagnostic of
    [5] alone. *)
Example out_of_range_answer_reported :
  validateQuestion (JObject outOfRangeMembers) 0
  = ([questionDiagnostic 0 (invalidIndexBody "5" 3) Error], Normal tt).
Proof. reflexivity. Qed.

(** Numbers that are no array index, with three options: [2.5] is within
    the range and passes, [-0.5] and [1e21] are reported with the text the
    template literal prints. *)
Example fractional_answers_checked :
  checkAnswerIndex 0 3 (JNumber (mkNumber (Finite (5 # 2)) "2.5")) = ([], Normal tt)
  /\ checkAnswerIndex 0 3 (JNumber (mkNumber (Finite (-1 # 2)) "-0.5"))
     = ([questionDiagnostic 0
           "correct_answers contains invalid index -0.5. Valid range: 0-2" Error],
        Normal tt)
  /\ checkAnswerIndex 0 3
       (JNumber (mkNumber (Finite (inject_Z (10 ^ 21))) "1e+21"))
     = ([questionDiagnostic 0
           "correct_answers contains invalid index 1e+21. Valid range: 0-2" Error],
        Normal tt).
Proof. repeat split; reflexivity. Qed.

(** C6 (as the claim states it, refuted): a single choice question with
    [correct_answers: []] has [len(correct_answers) != 1], yet it gets
    "correct_answers cannot be empty" and not the exactly one correct answer
    diagnostic. *)
Lemma empty_answers_no_count_diagnostic :
  validateQuestion emptyAnswersQuestion 0
  = ([questionDiagnostic 0 "correct_answers cannot be empty" Error], Normal tt)
  /\ ~ In (questionDiagnostic 0 (exactlyOneAnswerBody "single_choice") Error)
          (pushed (validateQuestion emptyAnswersQuestion 0)).
Proof.
  split; [reflexivity |].
  intros [H | []]. discriminate H.
Qed.

(** C6 (amended): for a question of type [single_choice] or [true_false]
    whose [correct_answers] is an array, two answers or more always get
    "<type> questions must have exactly one correct answer"; one answer
    never does; and no answer does not either: the empty array gets
    "correct_answers cannot be empty" in its place. *)
Theorem answer_count_diagnostic
    (members : list (string * json)) (index : nat) (ty : string)
    (answers : list json) :
  assoc "type" members = Some (JString ty) ->
  ty = "single_choice" \/ ty = "true_false" ->
  assoc "correct_answers" members = Some (JArray answers) ->
  let ds := pushed (validateQuestion (JObject members) index) in
  (2 <= length answers ->
     In (questionDiagnostic index (exactlyOneAnswerBody ty) Error) ds)
  /\ (length answers = 1 ->
     ~ In (questionDiagnostic index (exactlyOneAnswerBody ty) Error) ds)
  /\ (length answers = 0 ->
     ~ In (questionDiagnostic index (exactlyOneAnswerBody ty) Error) ds
     /\ In (questionDiagnostic index "correct_answers cannot be empty" Error) ds).
Proof.
  intros Hty Hcases Hans ds.
  assert (Hin : In ty supportedTypes)
    by (destruct Hcases as [-> | ->]; simpl; auto).
  assert (Hds : ds
    = pushed (validateQuestionText (assoc "text" members) index)
      ++ pushed (validateQuestionOptions (Some (JString ty))
                   (assoc "options" members) index)
      ++ pushed (validateQuestionAnswers (Some (JString ty)) (assoc "options" members)
                   (Some (JArray answers)) index)).
  { unfold ds. rewrite (validateQuestion_supported members index ty Hty Hin), Hans.
    reflexivity. }
  assert (Hcount : pushed (checkAnswerCount (Some (JString ty)) answers index)
                   = if negb (length answers =? 1)%nat
                     then [questionDiagnostic index (exactlyOneAnswerBody ty) Error]
                     else []).
  { rewrite checkAnswerCount_pushed. destruct Hcases as [-> | ->]; reflexivity. }
  assert (Hother : forall d,
    In d (pushed (validateQuestionText (assoc "text" members) index)
          ++ pushed (validateQuestionOptions (Some (JString ty))
                       (assoc "options" members) index)) ->
    d <> questionDiagnostic index (exactlyOneAnswerBody ty) Error).
  { intros d Hd Heq. subst d. apply in_app_or in Hd. destruct Hd as [H | H].
    - apply text_diagnostics in H. destruct H as [H | H];
        apply questionDiagnostic_inj in H; destruct H as [H _];
        destruct Hcases as [-> | ->]; discriminate H.
    - apply options_diagnostics in H. destruct H as [H | [H | [H | H]]];
        apply questionDiagnostic_inj in H; destruct H as [Hb Hs];
        try discriminate Hs;
        destruct Hcases as [-> | ->]; discriminate Hb. }
  assert (Hnone : length answers <= 1 ->
    ~ In (questionDiagnostic index (exactlyOneAnswerBody ty) Error) ds).
  { intros Hlen Hd. rewrite Hds, app_assoc in Hd. apply in_app_or in Hd.
    destruct Hd as [Hd | Hd]; [exact (Hother _ Hd eq_refl) |].
    apply answers_diagnostics in Hd.
    destruct Hd as [[Hd _] | [[Hne Hd] | [[shown [n Hd]] | Hd]]].
    - apply questionDiagnostic_inj in Hd. destruct Hd as [Hd _].
      destruct Hcases as [-> | ->]; discriminate Hd.
    - rewrite Hcount in Hd. destruct answers as [| v [| w rest]]; simpl in Hlen.
      + contradiction Hne; reflexivity.
      + destruct Hd.
      + lia.
    - apply questionDiagnostic_inj in Hd. destruct Hd as [Hd _].
      destruct Hcases as [-> | ->]; discriminate Hd.
    - apply checkTrueFalseAnswer_diagnostics in Hd.
      apply questionDiagnostic_inj in Hd. destruct Hd as [Hd _].
      destruct Hcases as [-> | ->]; discriminate Hd. }
  split; [| split].
  - intros Hlen. rewrite Hds. apply in_or_app. right. apply in_or_app. right.
    unfold validateQuestionAnswers. simpl truthy. simpl isNull. simpl negb. cbv iota.
    destruct answers as [| v [| w rest]]; simpl in Hlen; try lia.
    change (length (v :: w :: rest) =? 0)%nat with false. cbv iota.
    rewrite pushed_bind, checkAnswerCount_outcome, Hcount.
    apply in_or_app. left. left. reflexivity.
  - intros Hlen. apply Hnone. lia.
  - intros Hlen. split; [apply Hnone; lia |].
    destruct answers as [| v rest]; [| discriminate Hlen].
    rewrite Hds. apply in_or_app. right. apply in_or_app. right.
    left. reflexivity.
Qed.

Lemma answer_count_diagnostic_witness :
  2 <= length [JNumber 0; JNumber 1]
  /\ In (questionDiagnostic 0 (exactlyOneAnswerBody "single_choice") Error)
        (pushed (validateQuestion (JObject twoAnswersMembers) 0)).
Proof.
  split; [simpl; lia |].
  apply (answer_count_diagnostic twoAnswersMembers 0 "single_choice"
           [JNumber 0; JNumber 1] eq_refl (or_introl eq_refl) eq_refl).
  simpl; lia.
Defined.

(** ** The true_false answer *)

Lemma checkTrueFalseAnswer_pushed (ty : string) (answers : list json) (index : nat) :
  pushed (checkTrueFalseAnswer (Some (JString ty)) answers index)
  = match answers with
    | [v] =>
        if String.eqb ty "true_false" && strictNeqNumber v 0 && strictNeqNumber v 1
        then [questionDiagnostic index
                "true_false questions must have correct_answers index 0 or 1" Error]
        else []
    | _ => []
    end.
Proof.
  unfold checkTrueFalseAnswer. simpl strictEqString.
  destruct answers as [| v [| w rest]].
  - rewrite andb_false_r. reflexivity.
  - simpl length. simpl Nat.eqb. rewrite andb_true_r.
    destruct (String.eqb ty "true_false"); [| reflexivity].
    simpl andb. destruct (strictNeqNumber v 0 && strictNeqNumber v 1); reflexivity.
  - simpl length. simpl Nat.eqb. rewrite andb_false_r. reflexivity.
Qed.

(** When the range check of the answer completes, the true_false check
    behaves as specified: with exactly one answer [v], the
    diagnostic is pushed exactly when [v !== 0 && v !== 1], next to the
    invalid index diagnostic of [v] when [v] is also out of range; with any
    other number of answers it is never pushed. *)
Lemma true_false_domain_diagnostic
    (members : list (string * json)) (index : nat) (opts answers : list json) :
  assoc "type" members = Some (JString "true_false") ->
  assoc "options" members = Some (JArray opts) ->
  assoc "correct_answers" members = Some (JArray answers) ->
  let ds := pushed (validateQuestion (JObject members) index) in
  let domain := questionDiagnostic index
                  "true_false questions must have correct_answers index 0 or 1" Error in
  (forall v, answers = [v] ->
     outcome (checkAnswerIndex index (length opts) v) = Normal tt ->
     (In domain ds <-> strictNeqNumber v 0 = true /\ strictNeqNumber v 1 = true)
     /\ forall shown, ~ inRange v (length opts) -> toString v = Normal shown ->
          In (questionDiagnostic index (invalidIndexBody shown (length opts)) Error) ds)
  /\ (length answers <> 1 -> ~ In domain ds).
Proof.
  intros Hty Hopts Hans ds domain.
  assert (Hin : In "true_false" supportedTypes) by (simpl; auto).
  assert (Hds : ds
    = pushed (validateQuestionText (assoc "text" members) index)
      ++ pushed (validateQuestionOptions (Some (JString "true_false"))
                   (Some (JArray opts)) index)
      ++ pushed (validateQuestionAnswers (Some (JString "true_false"))
                   (Some (JArray opts)) (Some (JArray answers)) index)).
  { unfold ds. rewrite (validateQuestion_supported members index _ Hty Hin), Hopts, Hans.
    reflexivity. }
  assert (Hother : forall d,
    In d (pushed (validateQuestionText (assoc "text" members) index)
          ++ pushed (validateQuestionOptions (Some (JString "true_false"))
                       (Some (JArray opts)) index)) ->
    d <> domain).
  { intros d Hd Heq. subst d. apply in_app_or in Hd. destruct Hd as [H | H].
    - apply text_diagnostics in H. destruct H as [H | H];
        apply questionDiagnostic_inj in H; destruct H as [H _]; discriminate H.
    - apply options_diagnostics in H. destruct H as [H | [H | [H | H]]];
        apply questionDiagnostic_inj in H; destruct H as [Hb Hs];
        first [discriminate Hs | discriminate Hb]. }
  assert (Hdomain : In domain ds ->
            In domain (pushed (checkTrueFalseAnswer (Some (JString "true_false"))
                                 answers index))).
  { intros Hd. rewrite Hds, app_assoc in Hd. apply in_app_or in Hd.
    destruct Hd as [Hd | Hd]; [destruct (Hother _ Hd eq_refl) |].
    apply answers_diagnostics in Hd.
    destruct Hd as [[Hd _] | [[_ Hd] | [[shown [n Hd]] | Hd]]].
    - apply questionDiagnostic_inj in Hd. destruct Hd as [Hd _]. discriminate Hd.
    - rewrite checkAnswerCount_pushed in Hd.
      destruct (_ && negb (length answers =? 1)%nat); [| destruct Hd].
      destruct Hd as [Hd | []].
      apply questionDiagnostic_inj in Hd. destruct Hd as [Hd _]. discriminate Hd.
    - apply questionDiagnostic_inj in Hd. destruct Hd as [Hd _]. discriminate Hd.
    - exact Hd. }
  split.
  - intros v -> Hloop.
    assert (Hanswers : pushed (validateQuestionAnswers (Some (JString "true_false"))
                                 (Some (JArray opts)) (Some (JArray [v])) index)
              = pushed (checkAnswerIndex index (length opts) v)
                ++ pushed (checkTrueFalseAnswer (Some (JString "true_false")) [v] index)).
    { rewrite validateQuestionAnswers_array by discriminate.
      rewrite pushed_bind, checkAnswerCount_outcome.
      rewrite checkAnswerCount_pushed. simpl app.
      rewrite pushed_bind. simpl forOf.
      rewrite outcome_bind, Hloop. simpl outcome at 1. cbv iota.
      rewrite pushed_bind, Hloop. simpl pushed at 2. rewrite app_nil_r. reflexivity. }
    split; [split |].
    + intros Hd. apply Hdomain in Hd. rewrite checkTrueFalseAnswer_pushed in Hd.
      simpl in Hd.
      destruct (strictNeqNumber v 0) eqn:E0; [| destruct Hd].
      destruct (strictNeqNumber v 1) eqn:E1; [| destruct Hd].
      split; reflexivity.
    + intros [E0 E1]. rewrite Hds, Hanswers.
      apply in_or_app. right. apply in_or_app. right. apply in_or_app. right.
      rewrite checkTrueFalseAnswer_pushed. simpl String.eqb. simpl andb.
      rewrite E0, E1. left. reflexivity.
    + intros shown Hr Hs. rewrite Hds, Hanswers.
      apply in_or_app. right. apply in_or_app. right. apply in_or_app. left.
      rewrite (checkAnswerIndex_invalid index (length opts) v shown); [left; reflexivity | | exact Hs].
      apply isInvalidIndex_true. exact Hr.
  - intros Hlen Hd. apply Hdomain in Hd. rewrite checkTrueFalseAnswer_pushed in Hd.
    destruct answers as [| v [| w rest]]; try destruct Hd.
    contradiction Hlen; reflexivity.
Qed.

(** C8 (where the code leaves the claim): a true_false question with two
    options whose single answer is an object with an own property named
    [toString].  The answer is neither [0] nor [1], but building the
    message of the range check throws before the true_false check is
    reached: the callback pushes nothing, and the document gets the
    "Invalid JSON" diagnostic of the [catch] block alone. *)
Theorem shadowed_toString_answer_throws :
  validateQuestion shadowedToStringQuestion 0
  = ([], Throw (TypeError "Cannot convert object to primitive value"))
  /\ ~ In (questionDiagnostic 0
             "true_false questions must have correct_answers index 0 or 1" Error)
          (pushed (validateQuestion shadowedToStringQuestion 0))
  /\ collectDiagnostics sampleParse None shadowedToStringDocument
     = [mkDiagnostic zeroRange "Invalid JSON: Cannot convert object to primitive value"
          Error "quiz-validator"].
Proof.
  split; [reflexivity |]. split; [intros [] | reflexivity].
Qed.

(** ** From a question to the published list *)

Lemma pushed_bind_left {A B : Type} (m : Eff A) (k : A -> Eff B) (d : Diagnostic) :
  In d (pushed m) -> In d (pushed (bind m k)).
Proof.
  intros H. rewrite pushed_bind. destruct (outcome m); [| exact H].
  apply in_or_app. left. exact H.
Qed.

Lemma pushed_bind_right {A B : Type} (m : Eff A) (k : A -> Eff B) (a : A)
    (d : Diagnostic) :
  outcome m = Normal a -> In d (pushed (k a)) -> In d (pushed (bind m k)).
Proof.
  intros Hm H. rewrite pushed_bind, Hm. apply in_or_app. right. exact H.
Qed.

Lemma forEachFrom_pushed {A : Type} (body : A -> nat -> Eff unit) (items : list A)
    (start i : nat) (x : A) (d : Diagnostic) :
  nth_error items i = Some x ->
  (forall j y, j < i -> nth_error items j = Some y ->
     outcome (body y (start + j)) = Normal tt) ->
  In d (pushed (body x (start + i))) ->
  In d (pushed (forEachFrom body items start)).
Proof.
  revert start i. induction items as [| y rest IH]; intros start i Hnth Hbefore Hd.
  - destruct i; discriminate Hnth.
  - simpl forEachFrom. destruct i as [| i].
    + injection Hnth as ->. rewrite Nat.add_0_r in Hd.
      apply pushed_bind_left. exact Hd.
    + apply (pushed_bind_right _ _ tt).
      * specialize (Hbefore 0 y (Nat.lt_0_succ i) eq_refl).
        rewrite Nat.add_0_r in Hbefore. exact Hbefore.
      * apply (IH (S start) i Hnth).
        -- intros j z Hj Hz. replace (S start + j) with (start + S j) by lia.
           apply Hbefore; [lia | exact Hz].
        -- replace (S start + i) with (start + S i) by lia. exact Hd.
Qed.

Lemma validateMetadata_outcome (metadata : json) (document : TextDocument) :
  metadata <> JNull -> outcome (validateMetadata metadata document) = Normal tt.
Proof. intros Hm. rewrite (validateMetadata_pushed _ _ Hm). reflexivity. Qed.

(** What the callback pushes on a question reaches the published list, as
    long as the callback completed on every question before it. *)
Lemma question_diagnostics_published
    (JSON_parse : string -> completion json)
    (validate : option (json -> list ErrorObject))
    (document : TextDocument) (qm : list (string * json)) (items : list json)
    (i : nat) (question : json) (d : Diagnostic) :
  JSON_parse (getText document) = Normal (JObject qm) ->
  assoc "questions" qm = Some (JArray items) ->
  nth_error items i = Some question ->
  (forall j earlier, j < i -> nth_error items j = Some earlier ->
     outcome (validateQuestion earlier j) = Normal tt) ->
  In d (pushed (validateQuestion question i)) ->
  In d (collectDiagnostics JSON_parse validate document).
Proof.
  intros Hparse Hq Hnth Hbefore Hd.
  assert (Hcollect : In d (pushed (validateText JSON_parse validate document))
                     -> In d (collectDiagnostics JSON_parse validate document)).
  { unfold collectDiagnostics.
    destruct (validateText JSON_parse validate document) as [ds [[] | e]]; simpl.
    - auto.
    - intros H. apply in_or_app. left. exact H. }
  apply Hcollect. unfold validateText.
  rewrite Hparse, bind_eval_normal. simpl getProp. rewrite bind_eval_normal.
  apply (pushed_bind_right _ _ tt).
  - destruct (truthy (assoc "metadata" qm)) eqn:T; [| reflexivity].
    simpl negb. cbv iota. destruct (assoc "metadata" qm) as [m |]; [| reflexivity].
    apply validateMetadata_outcome. intros ->. discriminate T.
  - rewrite Hq, bind_eval_normal. apply pushed_bind_left.
    simpl truthy. simpl negb. cbv iota. unfold validateQuestions, forEach.
    apply (forEachFrom_pushed validateQuestion items 0 i question d Hnth);
      [exact Hbefore | exact Hd].
Qed.

(** * Further properties of the validator *)

(** ** Statements that push nothing *)

Lemma bind_silent {A B : Type} (m : Eff A) (k : A -> Eff B) (b : B) :
  bind m k = ([], Normal b)
  <-> exists a, m = ([], Normal a) /\ k a = ([], Normal b).
Proof.
  split.
  - destruct m as [ds [a | e]]; simpl; intros H; [| discriminate H].
    injection H as Hds Hb. apply app_eq_nil in Hds. destruct Hds as [-> Hk].
    exists a. split; [reflexivity |]. rewrite (eff_eta (k a)).
    unfold pushed, outcome. rewrite Hk, Hb. reflexivity.
  - intros [a [-> Hk]]. simpl. rewrite Hk. reflexivity.
Qed.

Lemma checkAnswerIndex_silent (index optionsLength : nat) (v : json) :
  checkAnswerIndex index optionsLength v = ([], Normal tt)
  <-> isInvalidIndex v optionsLength = false.
Proof.
  split; [| apply checkAnswerIndex_valid].
  unfold checkAnswerIndex. destruct (isInvalidIndex v optionsLength); [| reflexivity].
  destruct (toString v) as [shown | e].
  - rewrite bind_eval_normal. intros H. discriminate H.
  - rewrite bind_eval_throw. intros H. discriminate H.
Qed.

Lemma forOf_silent {A : Type} (body : A -> Eff unit) (l : list A) :
  forOf body l = ([], Normal tt) <-> forall x, In x l -> body x = ([], Normal tt).
Proof.
  induction l as [| x rest IH]; simpl forOf.
  - split; [intros _ y [] | reflexivity].
  - rewrite bind_silent. split.
    + intros [[] [Hx Hrest]] y [<- | Hy]; [exact Hx |]. apply IH; assumption.
    + intros H. exists tt. split; [apply H; left; reflexivity |].
      apply IH. intros y Hy. apply H. right. exact Hy.
Qed.

Lemma forEachFrom_silent {A : Type} (body : A -> nat -> Eff unit) (l : list A)
    (start : nat) :
  forEachFrom body l start = ([], Normal tt)
  <-> forall i x, nth_error l i = Some x -> body x (start + i) = ([], Normal tt).
Proof.
  revert start. induction l as [| y rest IH]; intros start; simpl forEachFrom.
  - split; [intros _ [| i] x H; discriminate H | reflexivity].
  - rewrite bind_silent. split.
    + intros [[] [Hy Hrest]] [| i] x Hx.
      * injection Hx as <-. rewrite Nat.add_0_r. exact Hy.
      * replace (start + S i) with (S start + i) by lia.
        apply (proj1 (IH (S start)) Hrest). exact Hx.
    + intros H. exists tt. split.
      * specialize (H 0 y eq_refl). rewrite Nat.add_0_r in H. exact H.
      * apply IH. intros i x Hx. replace (S start + i) with (start + S i) by lia.
        apply H. exact Hx.
Qed.

Lemma validateQuestionType_silent (type : jsvalue) (index : nat) :
  validateQuestionType type index = ([], Normal tt) <-> isSupportedType type = true.
Proof.
  unfold validateQuestionType. split.
  - destruct (truthy type); simpl negb; cbv iota; [| intros H; discriminate H].
    destruct (isSupportedType type); [reflexivity |]. simpl negb. cbv iota.
    destruct (templateString type) as [shown | e].
    + rewrite bind_eval_normal. intros H. discriminate H.
    + rewrite bind_eval_throw. intros H. discriminate H.
  - intros Hs. destruct type as [[| | | ty | |] |]; try discriminate Hs.
    apply isSupportedType_string in Hs. rewrite (supported_truthy ty Hs).
    apply isSupportedType_string in Hs. rewrite Hs. reflexivity.
Qed.

Lemma validateQuestionText_silent (text : jsvalue) (index : nat) :
  validateQuestionText text index = ([], Normal tt)
  <-> exists s, text = Some (JString s) /\ s <> "".
Proof.
  unfold validateQuestionText. split.
  - destruct text as [[| b | n | s | items | members] |]; simpl;
      try (intros H; discriminate H);
      try (destruct b; intros H; discriminate H);
      try (destruct (numberEq n 0); intros H; discriminate H).
    destruct (String.eqb s "") eqn:E; simpl; intros H; [discriminate H |].
    exists s. split; [reflexivity |]. intros ->. discriminate E.
  - intros [s [-> Hs]]. rewrite (nonempty_truthy s Hs). reflexivity.
Qed.

Lemma validateQuestionOptions_silent (ty : string) (options : jsvalue) (index : nat) :
  validateQuestionOptions (Some (JString ty)) options index = ([], Normal tt)
  <-> exists opts, options = Some (JArray opts) /\ optionCountOk ty (length opts) = true.
Proof.
  unfold validateQuestionOptions, optionCountOk. simpl strictEqString. split.
  - destruct options as [[| b | n | s | opts | members] |];
      simpl truthy; try (intros H; discriminate H);
      try (destruct b; intros H; discriminate H);
      try (destruct (numberEq n 0); intros H; discriminate H);
      try (destruct (String.eqb s ""); intros H; discriminate H).
    simpl negb. cbv iota. intros H. exists opts. split; [reflexivity |].
    destruct (String.eqb ty "true_false").
    + destruct (length opts =? 2)%nat; [reflexivity | discriminate H].
    + destruct (length opts <? 2)%nat eqn:E.
      * cbn in H. discriminate H.
      * apply Nat.ltb_ge in E. apply Nat.leb_le. exact E.
  - intros [opts [-> Hc]]. simpl truthy. simpl negb. cbv iota.
    destruct (String.eqb ty "true_false").
    + rewrite Hc. reflexivity.
    + apply Nat.leb_le in Hc. apply Nat.ltb_ge in Hc. rewrite Hc. reflexivity.
Qed.

Lemma checkAnswerCount_silent (ty : string) (answers : list json) (index : nat) :
  answers <> [] ->
  (checkAnswerCount (Some (JString ty)) answers index = ([], Normal tt)
   <-> answerCountOk ty (length answers) = true).
Proof.
  intros Hne. rewrite (eff_eta (checkAnswerCount _ _ _)).
  rewrite checkAnswerCount_outcome, checkAnswerCount_pushed. unfold answerCountOk.
  destruct (String.eqb ty "single_choice" || String.eqb ty "true_false"); simpl andb.
  - destruct (length answers =? 1)%nat; simpl; split; intros H;
      first [reflexivity | discriminate H].
  - destruct answers as [| v rest]; [contradiction Hne; reflexivity |].
    simpl. split; reflexivity.
Qed.

Lemma forallb_valid_indices (index optionsLength : nat) (answers : list json) :
  forOf (checkAnswerIndex index optionsLength) answers = ([], Normal tt)
  <-> forallb (fun v => negb (isInvalidIndex v optionsLength)) answers = true.
Proof.
  rewrite forOf_silent, forallb_forall. split; intros H v Hv.
  - apply negb_true_iff. apply (checkAnswerIndex_silent index). exact (H v Hv).
  - apply checkAnswerIndex_silent. apply negb_true_iff. exact (H v Hv).
Qed.

Lemma validateQuestionAnswers_silent (ty : string) (opts : list json)
    (correct_answers : jsvalue) (index : nat) :
  optionCountOk ty (length opts) = true ->
  (validateQuestionAnswers (Some (JString ty)) (Some (JArray opts)) correct_answers index
   = ([], Normal tt)
   <-> exists answers, correct_answers = Some (JArray answers)
         /\ answerCountOk ty (length answers) = true
         /\ forallb (fun v => negb (isInvalidIndex v (length opts))) answers = true
         /\ answerDomainOk ty answers = true).
Proof.
  intros Hopts. split.
  - destruct correct_answers as [[| b | n | s | answers | members] |];
      try solve [unfold validateQuestionAnswers; simpl truthy; simpl isNull;
                 first [ intros H; discriminate H
                       | destruct b; intros H; discriminate H
                       | destruct (numberEq n 0); intros H; discriminate H
                       | destruct (String.eqb s ""); intros H; discriminate H ]].
    destruct answers as [| v rest]; [intros H; discriminate H |].
    rewrite validateQuestionAnswers_array by discriminate.
    rewrite bind_silent. intros [[] [Hcount Hrest]].
    apply bind_silent in Hrest. destruct Hrest as [[] [Hloop Hdomain]].
    apply (checkAnswerCount_silent ty (v :: rest) index) in Hcount; [| discriminate].
    exists (v :: rest). split; [reflexivity |]. split; [exact Hcount |]. split.
    + apply (forallb_valid_indices index). exact Hloop.
    + unfold answerDomainOk. destruct (String.eqb ty "true_false") eqn:Ety; [| reflexivity].
      unfold answerCountOk in Hcount. rewrite Ety, orb_true_r in Hcount.
      destruct rest as [| w rest]; [| discriminate Hcount].
      unfold checkTrueFalseAnswer in Hdomain. simpl strictEqString in Hdomain.
      rewrite Ety in Hdomain. simpl in Hdomain. unfold isZeroOrOne. simpl.
      destruct (strictNeqNumber v 0 && strictNeqNumber v 1); [discriminate Hdomain | reflexivity].
  - intros [answers [-> [Hcount [Hvalid Hdom]]]].
    assert (Hne : answers <> []).
    { intros ->. unfold answerCountOk in Hcount.
      destruct (String.eqb ty "single_choice" || String.eqb ty "true_false");
        discriminate Hcount. }
    rewrite (validateQuestionAnswers_array _ _ _ _ Hne).
    apply bind_silent. exists tt. split; [apply checkAnswerCount_silent; assumption |].
    apply bind_silent. exists tt. split; [apply forallb_valid_indices; exact Hvalid |].
    rewrite (eff_eta (checkTrueFalseAnswer _ _ _)).
    rewrite checkTrueFalseAnswer_outcome, checkTrueFalseAnswer_pushed.
    destruct answers as [| v [| w rest]]; try reflexivity.
    destruct (String.eqb ty "true_false") eqn:Ety; [| reflexivity].
    unfold answerDomainOk in Hdom. rewrite Ety in Hdom. simpl in Hdom.
    rewrite andb_true_r in Hdom. unfold isZeroOrOne in Hdom.
    apply negb_true_iff in Hdom. simpl andb. rewrite Hdom. reflexivity.
Qed.

(** The callback reports nothing on a question, and completes, exactly when
    the question is accepted: a supported type, a non-empty string as text,
    an array of options of the size its type asks for, and a non-empty array
    of answers of the size its type asks for whose entries are all numbers
    [v] with [0 <= v < options.length] and, for [true_false], equal to [0]
    or [1]. *)
Lemma validateQuestion_silent (question : json) (index : nat) :
  validateQuestion question index = ([], Normal tt)
  <-> acceptedQuestion question = true.
Proof.
  destruct question as [| b | n | s | items | members];
    try (split; intros H; discriminate H).
  unfold validateQuestion, acceptedQuestion. simpl getProp.
  rewrite !bind_eval_normal. rewrite bind_silent. split.
  - intros [[] [Htype Hrest]]. apply validateQuestionType_silent in Htype.
    rewrite ?bind_eval_normal in Hrest. apply bind_silent in Hrest.
    destruct Hrest as [[] [Htext Hrest]].
    apply validateQuestionText_silent in Htext. destruct Htext as [text [Etext Ntext]].
    rewrite Htype in Hrest. rewrite ?bind_eval_normal in Hrest.
    destruct (assoc "type" members) as [[| | | ty | |] |]; try discriminate Htype.
    apply bind_silent in Hrest. destruct Hrest as [[] [Hoptions Hanswers]].
    apply validateQuestionOptions_silent in Hoptions.
    destruct Hoptions as [opts [Eopts Hcount]].
    rewrite ?bind_eval_normal in Hanswers. rewrite Eopts in Hanswers.
    apply (validateQuestionAnswers_silent ty opts _ index Hcount) in Hanswers.
    destruct Hanswers as [answers [Eanswers [Hanswers [Hvalid Hdomain]]]].
    rewrite Etext, Eopts, Eanswers. unfold isSupportedType in Htype.
    rewrite Htype, Hcount, Hanswers, Hvalid, Hdomain.
    destruct (String.eqb text "") eqn:E; [| reflexivity].
    apply String.eqb_eq in E. contradiction.
  - destruct (assoc "type" members) as [[| | | ty | |] |] eqn:Etype;
      try (intros H; discriminate H).
    destruct (assoc "text" members) as [[| | | text | |] |];
      try (intros H; discriminate H).
    destruct (assoc "options" members) as [[| | | | opts |] |];
      try (intros H; discriminate H).
    destruct (assoc "correct_answers" members) as [[| | | | answers |] |];
      try (intros H; discriminate H).
    intros H. apply andb_true_iff in H. destruct H as [H Hdomain].
    apply andb_true_iff in H. destruct H as [H Hvalid].
    apply andb_true_iff in H. destruct H as [H Hanswers].
    apply andb_true_iff in H. destruct H as [H Hcount].
    apply andb_true_iff in H. destruct H as [Hty Htext].
    exists tt. split; [apply validateQuestionType_silent; exact Hty |].
    rewrite ?bind_eval_normal. apply bind_silent. exists tt. split.
    + apply validateQuestionText_silent. exists text. split; [reflexivity |].
      intros ->. discriminate Htext.
    + change (isSupportedType (Some (JString ty))) with
        (existsb (String.eqb ty) supportedTypes).
      rewrite Hty, ?bind_eval_normal. apply bind_silent. exists tt. split.
      * apply validateQuestionOptions_silent. exists opts. split; [reflexivity | exact Hcount].
      * rewrite ?bind_eval_normal. apply validateQuestionAnswers_silent; [exact Hcount |].
        exists answers. split; [reflexivity |]. repeat split; assumption.
Qed.

(** ** Documents without diagnostics *)

Lemma validateMetadataField_silent (metadata : json) (document : TextDocument)
    (field : string) :
  validateMetadataField metadata document field = ([], Normal tt)
  <-> acceptedMetadataField metadata field = true.
Proof.
  unfold validateMetadataField, acceptedMetadataField.
  destruct (getProp metadata field) as [value | e].
  - rewrite bind_eval_normal.
    destruct value as [[| b | n | s | items | members] |]; simpl;
      try (split; intros H; discriminate H);
      try (destruct b; split; intros H; discriminate H);
      try (destruct (numberEq n 0); split; intros H; discriminate H).
    destruct (String.eqb s ""); simpl; split; intros H;
      first [reflexivity | discriminate H].
  - rewrite bind_eval_throw. split; intros H; discriminate H.
Qed.

(** The metadata loop reports nothing exactly when the four required fields
    are non-empty strings. *)
Lemma metadata_silent_iff_accepted (metadata : json) (document : TextDocument) :
  validateMetadata metadata document = ([], Normal tt)
  <-> acceptedMetadata metadata = true.
Proof.
  unfold validateMetadata, acceptedMetadata. rewrite forOf_silent, forallb_forall.
  split; intros H field Hfield;
    apply (validateMetadataField_silent metadata document field); exact (H field Hfield).
Qed.

Lemma acceptedMetadata_truthy (metadata : json) :
  acceptedMetadata metadata = true -> truthy (Some metadata) = true.
Proof.
  destruct metadata; try reflexivity; unfold acceptedMetadata; simpl; intros H;
    discriminate H.
Qed.

Lemma validateQuestions_silent (questions : json) (document : TextDocument) :
  validateQuestions questions document = ([], Normal tt)
  <-> exists items, questions = JArray items /\ forallb acceptedQuestion items = true.
Proof.
  split.
  - destruct questions as [| | | | items |]; simpl; try (intros H; discriminate H).
    unfold forEach. intros H. exists items. split; [reflexivity |].
    apply forallb_forall. intros x Hx. apply In_nth_error in Hx. destruct Hx as [i Hi].
    apply (validateQuestion_silent x (0 + i)).
    exact (proj1 (forEachFrom_silent validateQuestion items 0) H i x Hi).
  - intros [items [-> H]]. simpl. unfold forEach. apply forEachFrom_silent.
    intros i x Hx. apply validateQuestion_silent.
    apply (proj1 (forallb_forall _ _) H). exact (nth_error_In _ _ Hx).
Qed.

Lemma collectDiagnostics_nil (JSON_parse : string -> completion json)
    (validate : option (json -> list ErrorObject)) (document : TextDocument) :
  collectDiagnostics JSON_parse validate document = []
  <-> validateText JSON_parse validate document = ([], Normal tt).
Proof.
  unfold collectDiagnostics.
  destruct (validateText JSON_parse validate document) as [ds [[] | e]]; split; intros H.
  - rewrite H. reflexivity.
  - injection H as ->. reflexivity.
  - destruct ds; discriminate H.
  - discriminate H.
Qed.

(** A document gets no diagnostic at all exactly when its text parses to an
    accepted quiz (an object whose metadata holds the four required fields
    as non-empty strings and whose questions is an array of accepted
    questions, possibly empty) on which the schema, when one is loaded,
    reports no error. *)
Theorem no_diagnostics_iff_accepted (JSON_parse : string -> completion json)
    (validate : option (json -> list ErrorObject)) (document : TextDocument) :
  collectDiagnostics JSON_parse validate document = []
  <-> exists quiz,
        JSON_parse (getText document) = Normal quiz
        /\ acceptedQuiz quiz = true
        /\ match validate with
           | Some check => check quiz = []
           | None => True
           end.
Proof.
  rewrite collectDiagnostics_nil. unfold validateText. split.
  - destruct (JSON_parse (getText document)) as [quiz | e];
      [| rewrite bind_eval_throw; intros H; discriminate H].
    rewrite bind_eval_normal. intros H. exists quiz. split; [reflexivity |].
    destruct quiz as [| b | n | s | items | members];
      try (simpl in H; discriminate H).
    simpl getProp in H. rewrite !bind_eval_normal in H.
    apply bind_silent in H. destruct H as [[] [Hmetadata H]].
    apply bind_silent in H. destruct H as [[] [Hquestions Hschema]].
    unfold acceptedQuiz.
    destruct (assoc "metadata" members) as [metadata |]; [| discriminate Hmetadata].
    destruct (truthy (Some metadata)); [| discriminate Hmetadata].
    simpl negb in Hmetadata. cbv iota in Hmetadata.
    apply metadata_silent_iff_accepted in Hmetadata.
    destruct (assoc "questions" members) as [questions |]; [| discriminate Hquestions].
    destruct (truthy (Some questions)); [| discriminate Hquestions].
    simpl negb in Hquestions. cbv iota in Hquestions.
    apply validateQuestions_silent in Hquestions.
    destruct Hquestions as [items [-> Hitems]].
    rewrite Hmetadata, Hitems. split; [reflexivity |].
    rewrite validateSchema_diagnostics in Hschema.
    destruct validate as [check |]; [| exact I].
    injection Hschema as Hschema. exact (map_eq_nil _ _ Hschema).
  - intros [quiz [-> [Hquiz Hschema]]]. rewrite bind_eval_normal.
    destruct quiz as [| b | n | s | items | members]; try discriminate Hquiz.
    unfold acceptedQuiz in Hquiz. simpl getProp. rewrite !bind_eval_normal.
    destruct (assoc "metadata" members) as [metadata |]; [| discriminate Hquiz].
    destruct (assoc "questions" members) as [[| | | | items |] |];
      try discriminate Hquiz.
    apply andb_true_iff in Hquiz. destruct Hquiz as [Hmetadata Hitems].
    rewrite (acceptedMetadata_truthy metadata Hmetadata). simpl truthy. simpl negb.
    cbv iota.
    apply bind_silent. exists tt. split; [apply metadata_silent_iff_accepted; exact Hmetadata |].
    apply bind_silent. exists tt. split.
    + apply validateQuestions_silent. exists items. split; [reflexivity | exact Hitems].
    + rewrite validateSchema_diagnostics. destruct validate as [check |]; [| reflexivity].
      rewrite Hschema. reflexivity.
Qed.

(** The quiz that the command [createSample] writes is accepted: opened in
    the editor it gets no diagnostic from the validator. *)
Theorem sample_quiz_accepted (JSON_parse : string -> completion json)
    (document : TextDocument) :
  JSON_parse (getText document) = Normal sampleQuiz ->
  collectDiagnostics JSON_parse None document = [].
Proof.
  intros Hparse. unfold collectDiagnostics, validateText. rewrite Hparse.
  reflexivity.
Qed.

Lemma sample_quiz_accepted_witness :
  collectDiagnostics (parseKnown [sampleQuiz]) None
    (quizDocument "sample.quiz" (renderJson sampleQuiz)) = [].
Proof.
  apply (sample_quiz_accepted (parseKnown [sampleQuiz])
           (quizDocument "sample.quiz" (renderJson sampleQuiz))).
  reflexivity.
Defined.

(** A question that is not accepted is never passed over in silence: the
    callback pushes at least one diagnostic for it or throws; an accepted
    question gets none, whatever its position. *)
Theorem question_accepted_or_reported (question : json) (index : nat) :
  (acceptedQuestion question = true ->
     validateQuestion question index = ([], Normal tt))
  /\ (acceptedQuestion question = false ->
     pushed (validateQuestion question index) <> []
     \/ exists error, outcome (validateQuestion question index) = Throw error).
Proof.
  split.
  - apply validateQuestion_silent.
  - intros Hrejected.
    destruct (validateQuestion question index) as [ds [[] | error]] eqn:E.
    + left. destruct ds as [| d rest]; [| discriminate].
      apply validateQuestion_silent in E. rewrite E in Hrejected. discriminate Hrejected.
    + right. exists error. reflexivity.
Qed.

Lemma question_accepted_or_reported_witness :
  validateQuestion capitalQuestion 7 = ([], Normal tt)
  /\ (pushed (validateQuestion essayQuestion 7) <> []
      \/ exists error, outcome (validateQuestion essayQuestion 7) = Throw error).
Proof.
  split.
  - apply (proj1 (question_accepted_or_reported capitalQuestion 7)). reflexivity.
  - apply (proj2 (question_accepted_or_reported essayQuestion 7)). reflexivity.
Defined.

(** The answer [0.5] of a true_false question passes the range check of the
    two options and is reported by the true_false check alone: the question
    is not accepted. *)
Example half_answer_reported :
  acceptedQuestion (JObject answerHalfMembers) = false
  /\ validateQuestion (JObject answerHalfMembers) 0
     = ([questionDiagnostic 0
           "true_false questions must have correct_answers index 0 or 1" Error],
        Normal tt).
Proof. split; reflexivity. Qed.

(** ** What every diagnostic looks like *)

Lemma allPushed_ret {A : Type} (P : Diagnostic -> Prop) (a : A) : allPushed P (ret a).
Proof. intros d []. Qed.

Lemma allPushed_eval {A : Type} (P : Diagnostic -> Prop) (c : completion A) :
  allPushed P (eval c).
Proof. intros d []. Qed.

Lemma allPushed_push (P : Diagnostic -> Prop) (d : Diagnostic) :
  P d -> allPushed P (push d).
Proof. intros H x [<- | []]. exact H. Qed.

Lemma allPushed_bind {A B : Type} (P : Diagnostic -> Prop) (m : Eff A)
    (k : A -> Eff B) :
  allPushed P m -> (forall a, allPushed P (k a)) -> allPushed P (bind m k).
Proof.
  intros Hm Hk d Hd. rewrite pushed_bind in Hd. destruct (outcome m) as [a | e].
  - apply in_app_or in Hd. destruct Hd as [Hd | Hd]; [exact (Hm d Hd) | exact (Hk a d Hd)].
  - exact (Hm d Hd).
Qed.

Lemma allPushed_forOf {A : Type} (P : Diagnostic -> Prop) (body : A -> Eff unit)
    (l : list A) :
  (forall x, allPushed P (body x)) -> allPushed P (forOf body l).
Proof.
  intros Hbody. induction l as [| x rest IH]; simpl forOf.
  - apply allPushed_ret.
  - apply allPushed_bind; [apply Hbody | intros _; exact IH].
Qed.

Lemma allPushed_forEachFrom {A : Type} (P : Diagnostic -> Prop)
    (body : A -> nat -> Eff unit) (l : list A) (start : nat) :
  (forall x i, allPushed P (body x i)) -> allPushed P (forEachFrom body l start).
Proof.
  intros Hbody. revert start. induction l as [| x rest IH]; intros start; simpl forEachFrom.
  - apply allPushed_ret.
  - apply allPushed_bind; [apply Hbody | intros _; apply IH].
Qed.

Ltac all_pushed :=
  repeat first
    [ apply allPushed_ret
    | apply allPushed_eval
    | apply allPushed_push
    | apply allPushed_bind; [| intros ?]
    | apply allPushed_forOf; intros ?
    | match goal with
      | |- allPushed _ (if ?c then _ else _) => destruct c
      | |- allPushed _ (match ?x with _ => _ end) => destruct x
      end ].

Lemma allPushed_impl {A : Type} (P Q : Diagnostic -> Prop) (m : Eff A) :
  (forall d, P d -> Q d) -> allPushed P m -> allPushed Q m.
Proof. intros HPQ Hm d Hd. exact (HPQ d (Hm d Hd)). Qed.

Lemma validateQuestion_shape (question : json) (index : nat) :
  allPushed (questionShape index) (validateQuestion question index).
Proof.
  unfold validateQuestion, validateQuestionType, validateQuestionText,
    validateQuestionOptions, validateQuestionAnswers, checkAnswerCount,
    checkTrueFalseAnswer.
  all_pushed;
    try (unfold checkAnswerIndex; all_pushed);
    first [ left; eexists; reflexivity | right; eexists; reflexivity ].
Qed.

Lemma string_append_assoc (a b c : string) :
  ((a ++ b) ++ c)%string = (a ++ b ++ c)%string.
Proof. induction a as [| x a IH]; simpl; [reflexivity | rewrite IH; reflexivity]. Qed.

Lemma questionLabel_append (index : nat) (body : string) :
  (questionLabel index ++ body)%string
  = ("Question " ++ numberToString (Z.of_nat index + 1) ++ ": " ++ body)%string.
Proof. unfold questionLabel. rewrite !string_append_assoc. reflexivity. Qed.

(** Every diagnostic of the callback at position [index] is labelled
    "Question <index + 1>: ", sits at [Range(0, 0, 0, 0)], comes from
    [quiz-validator], and is an Error, unless it is the Warning "<type>
    questions must have at least 2 options". *)
Theorem question_diagnostics_labelled (question : json) (index : nat)
    (d : Diagnostic) :
  In d (pushed (validateQuestion question index)) ->
  exists body,
    message d = ("Question " ++ numberToString (Z.of_nat index + 1) ++ ": " ++ body)%string
    /\ range d = zeroRange
    /\ source d = "quiz-validator"
    /\ (severity d = Error
        \/ (severity d = Warning
            /\ exists type, body = (type ++ " questions must have at least 2 options")%string)).
Proof.
  intros Hd. destruct (validateQuestion_shape question index d Hd) as [[body ->] | [type ->]].
  - exists body. unfold questionDiagnostic, quizDiagnostic. cbn [message range source severity].
    rewrite questionLabel_append.
    split; [reflexivity |]. split; [reflexivity |]. split; [reflexivity |].
    left. reflexivity.
  - exists (atLeastTwoOptionsBody type).
    unfold questionDiagnostic, quizDiagnostic. cbn [message range source severity].
    rewrite questionLabel_append.
    split; [reflexivity |]. split; [reflexivity |]. split; [reflexivity |]. right.
    split; [reflexivity |]. exists type. reflexivity.
Qed.

Lemma question_diagnostics_labelled_witness :
  exists body,
    message (questionDiagnostic 0 (invalidTypeBody "essay") Error)
    = ("Question " ++ numberToString (Z.of_nat 0 + 1) ++ ": " ++ body)%string
    /\ range (questionDiagnostic 0 (invalidTypeBody "essay") Error) = zeroRange
    /\ source (questionDiagnostic 0 (invalidTypeBody "essay") Error) = "quiz-validator"
    /\ (severity (questionDiagnostic 0 (invalidTypeBody "essay") Error) = Error
        \/ (severity (questionDiagnostic 0 (invalidTypeBody "essay") Error) = Warning
            /\ exists type,
                 body = (type ++ " questions must have at least 2 options")%string)).
Proof.
  apply (question_diagnostics_labelled essayQuestion 0). left. reflexivity.
Defined.

Lemma propertyRange_zero_width (document : TextDocument) (property : string) :
  rangeStart (propertyRange document property)
  = rangeEnd (propertyRange document property).
Proof.
  unfold propertyRange, findPropertyRange.
  destruct (execFrom (propertyPattern property) (getText document) 0); reflexivity.
Qed.

Lemma structural_shape (document : TextDocument) (property message : string) :
  diagnosticShape (quizDiagnostic (propertyRange document property) message Error).
Proof.
  split; [apply propertyRange_zero_width |]. left. split; [reflexivity | left; reflexivity].
Qed.

Lemma questionShape_diagnosticShape (index : nat) (d : Diagnostic) :
  questionShape index d -> diagnosticShape d.
Proof.
  intros [[body ->] | [type ->]]; (split; [reflexivity |]); left;
    (split; [reflexivity |]); [left | right]; reflexivity.
Qed.

Lemma validateMetadata_shape (metadata : json) (document : TextDocument) :
  allPushed diagnosticShape (validateMetadata metadata document).
Proof.
  unfold validateMetadata, validateMetadataField. all_pushed; apply structural_shape.
Qed.

Lemma validateQuestions_shape (questions : json) (document : TextDocument) :
  allPushed diagnosticShape (validateQuestions questions document).
Proof.
  unfold validateQuestions, forEach.
  destruct questions; try (apply allPushed_push; apply structural_shape).
  apply allPushed_forEachFrom. intros x i.
  apply (allPushed_impl (questionShape i)); [apply questionShape_diagnosticShape |].
  apply validateQuestion_shape.
Qed.

(** Every diagnostic published for a document has a zero-width range and is
    either an Error or a Warning of [quiz-validator], or an Error of
    [quiz-schema] at [Range(0, 0, 0, 0)]: the validator never uses the
    severities Information and Hint, and never any other source. *)
Theorem diagnostics_well_formed (JSON_parse : string -> completion json)
    (validate : option (json -> list ErrorObject)) (document : TextDocument)
    (d : Diagnostic) :
  In d (collectDiagnostics JSON_parse validate document) ->
  rangeStart (range d) = rangeEnd (range d)
  /\ ((source d = "quiz-validator" /\ (severity d = Error \/ severity d = Warning))
      \/ (source d = "quiz-schema" /\ severity d = Error /\ range d = zeroRange)).
Proof.
  assert (Htext : allPushed diagnosticShape (validateText JSON_parse validate document)).
  { unfold validateText, validateSchema.
    all_pushed;
      first [ apply structural_shape
            | apply validateMetadata_shape
            | apply validateQuestions_shape
            | idtac ].
    all: split; [reflexivity | right; repeat split; reflexivity]. }
  unfold collectDiagnostics. unfold allPushed, pushed in Htext.
  destruct (validateText JSON_parse validate document) as [ds [[] | error]];
    simpl fst in Htext; intros Hd.
  - exact (Htext d Hd).
  - apply in_app_or in Hd. destruct Hd as [Hd | [<- | []]]; [exact (Htext d Hd) |].
    split; [reflexivity |]. left. split; [reflexivity | left; reflexivity].
Qed.

Lemma diagnostics_well_formed_witness :
  let d := mkDiagnostic zeroRange "Invalid JSON: Unexpected end of JSON input" Error
             "quiz-validator" in
  rangeStart (range d) = rangeEnd (range d)
  /\ ((source d = "quiz-validator" /\ (severity d = Error \/ severity d = Warning))
      \/ (source d = "quiz-schema" /\ severity d = Error /\ range d = zeroRange)).
Proof.
  apply (diagnostics_well_formed sampleParse None brokenDocument). left. reflexivity.
Defined.

(** ** The layers of a document's diagnostics *)

Lemma bind_ext {A B : Type} (m : Eff A) (k k' : A -> Eff B) :
  (forall a, k a = k' a) -> bind m k = bind m k'.
Proof. intros H. destruct m as [ds [a | e]]; simpl; [rewrite H |]; reflexivity. Qed.

Lemma validateText_parsed (JSON_parse : string -> completion json)
    (validate : option (json -> list ErrorObject)) (document : TextDocument)
    (quiz : json) (metadata questions : jsvalue) :
  JSON_parse (getText document) = Normal quiz ->
  getProp quiz "metadata" = Normal metadata ->
  getProp quiz "questions" = Normal questions ->
  validateText JSON_parse validate document
  = (validateMetadataProperty metadata document ;;
     validateQuestionsProperty questions document ;;
     validateSchema validate quiz document).
Proof.
  intros Hparse Hm Hq. unfold validateText.
  rewrite Hparse, bind_eval_normal, Hm, bind_eval_normal, Hq.
  unfold validateMetadataProperty, validateQuestionsProperty.
  apply bind_ext. intros _. rewrite bind_eval_normal. reflexivity.
Qed.

Lemma validateMetadataProperty_outcome (metadata : jsvalue) (document : TextDocument) :
  outcome (validateMetadataProperty metadata document) = Normal tt.
Proof.
  unfold validateMetadataProperty.
  destruct (truthy metadata) eqn:T; [| reflexivity]. simpl negb. cbv iota.
  destruct metadata as [m |]; [| reflexivity].
  apply validateMetadata_outcome. intros ->. discriminate T.
Qed.

Lemma validateSchema_eq (validate : option (json -> list ErrorObject)) (quiz : json)
    (document : TextDocument) :
  validateSchema validate quiz document
  = (schemaDiagnostics validate quiz document, Normal tt).
Proof. apply validateSchema_diagnostics. Qed.

(** The diagnostics of a document that parses to an object come in layers:
    first those of the metadata, then those of the questions, then those of
    the schema.  When a question makes the rule engine throw, the schema is
    not consulted at all: the list ends with the diagnostic of the [catch]
    block instead. *)
Theorem diagnostics_in_layers (JSON_parse : string -> completion json)
    (validate : option (json -> list ErrorObject)) (document : TextDocument)
    (members : list (string * json)) :
  JSON_parse (getText document) = Normal (JObject members) ->
  collectDiagnostics JSON_parse validate document
  = pushed (validateMetadataProperty (assoc "metadata" members) document)
    ++ pushed (validateQuestionsProperty (assoc "questions" members) document)
    ++ match outcome (validateQuestionsProperty (assoc "questions" members) document) with
       | Normal _ => schemaDiagnostics validate (JObject members) document
       | Throw error => [invalidJsonDiagnostic error]
       end.
Proof.
  intros Hparse. unfold collectDiagnostics.
  rewrite (validateText_parsed _ _ _ _ _ _ Hparse eq_refl eq_refl).
  rewrite (bind_normal _ _ tt (validateMetadataProperty_outcome _ _)).
  rewrite validateSchema_eq.
  destruct (validateQuestionsProperty (assoc "questions" members) document)
    as [ds [[] | error]]; simpl; unfold pushed; simpl.
  - reflexivity.
  - rewrite <- app_assoc. reflexivity.
Qed.

Lemma diagnostics_in_layers_witness :
  collectDiagnostics sampleParse None shadowedToStringDocument
  = pushed (validateMetadataProperty (Some sampleMetadata) shadowedToStringDocument)
    ++ pushed (validateQuestionsProperty (Some (JArray [shadowedToStringQuestion]))
                 shadowedToStringDocument)
    ++ [invalidJsonDiagnostic (TypeError "Cannot convert object to primitive value")].
Proof.
  apply (diagnostics_in_layers sampleParse None shadowedToStringDocument
           [("metadata", sampleMetadata);
            ("questions", JArray [shadowedToStringQuestion])]).
  reflexivity.
Defined.

Lemma forEachFrom_null (before after : list json) (start : nat) :
  outcome (forEachFrom validateQuestion before start) = Normal tt ->
  forEachFrom validateQuestion (before ++ JNull :: after) start
  = (pushed (forEachFrom validateQuestion before start),
     Throw (TypeError "Cannot read properties of null (reading 'type')")).
Proof.
  revert start. induction before as [| x rest IH]; intros start Hbefore.
  - reflexivity.
  - simpl app. simpl forEachFrom in *. rewrite outcome_bind in Hbefore.
    destruct (outcome (validateQuestion x start)) as [[] | e] eqn:Ex;
      [| discriminate Hbefore].
    rewrite (bind_normal _ _ tt Ex), (IH (S start) Hbefore).
    rewrite (bind_normal _ _ tt Ex). reflexivity.
Qed.

(** A [null] among the questions stops the validation there: the questions
    before it keep their diagnostics, the questions after it are never
    looked at, the schema is not consulted, and the document is reported as
    "Invalid JSON: Cannot read properties of null (reading 'type')". *)
Theorem null_question_stops_validation (JSON_parse : string -> completion json)
    (validate : option (json -> list ErrorObject)) (document : TextDocument)
    (members : list (string * json)) (before after : list json) :
  JSON_parse (getText document) = Normal (JObject members) ->
  assoc "questions" members = Some (JArray (before ++ JNull :: after)) ->
  outcome (forEach validateQuestion before) = Normal tt ->
  collectDiagnostics JSON_parse validate document
  = pushed (validateMetadataProperty (assoc "metadata" members) document)
    ++ pushed (forEach validateQuestion before)
    ++ [quizDiagnostic zeroRange
          "Invalid JSON: Cannot read properties of null (reading 'type')" Error].
Proof.
  intros Hparse Hq Hbefore. unfold collectDiagnostics.
  rewrite (validateText_parsed _ _ _ _ _ _ Hparse eq_refl eq_refl).
  rewrite (bind_normal _ _ tt (validateMetadataProperty_outcome _ _)).
  rewrite Hq. unfold validateQuestionsProperty. simpl truthy. simpl negb. cbv iota.
  unfold validateQuestions, forEach in *. rewrite (forEachFrom_null _ _ 0 Hbefore).
  simpl. unfold pushed. simpl. rewrite <- app_assoc. reflexivity.
Qed.

Lemma null_question_stops_validation_witness :
  collectDiagnostics
    (parseKnown [JObject [("metadata", sampleMetadata);
                          ("questions", JArray [essayQuestion; JNull; essayWithAnswers])]])
    None
    (quizDocument "null.quiz"
       (renderJson (JObject [("metadata", sampleMetadata);
                             ("questions", JArray [essayQuestion; JNull; essayWithAnswers])])))
  = [questionDiagnostic 0 (invalidTypeBody "essay") Error;
     quizDiagnostic zeroRange
       "Invalid JSON: Cannot read properties of null (reading 'type')" Error].
Proof.
  apply (null_question_stops_validation _ None _
           [("metadata", sampleMetadata);
            ("questions", JArray [essayQuestion; JNull; essayWithAnswers])]
           [essayQuestion] [essayWithAnswers]).
  - reflexivity.
  - reflexivity.
  - reflexivity.
Defined.

(** A document that parses to something else than an object: [null] is
    reported as "Invalid JSON: Cannot read properties of null (reading
    'metadata')" and nothing else, the schema not being consulted; a number,
    a string, a boolean or an array is reported as missing both [metadata]
    and [questions], before whatever the schema says. *)
Theorem non_object_document (JSON_parse : string -> completion json)
    (validate : option (json -> list ErrorObject)) (document : TextDocument)
    (quiz : json) :
  JSON_parse (getText document) = Normal quiz ->
  match quiz with
  | JObject _ => True
  | JNull =>
      collectDiagnostics JSON_parse validate document
      = [quizDiagnostic zeroRange
           "Invalid JSON: Cannot read properties of null (reading 'metadata')" Error]
  | _ =>
      collectDiagnostics JSON_parse validate document
      = [quizDiagnostic (propertyRange document "metadata")
           "Missing required property: metadata" Error;
         quizDiagnostic (propertyRange document "questions")
           "Missing required property: questions" Error]
        ++ schemaDiagnostics validate quiz document
  end.
Proof.
  intros Hparse. unfold collectDiagnostics.
  destruct quiz; try exact I;
    try (rewrite (validateText_parsed _ _ _ _ None None Hparse eq_refl eq_refl);
         rewrite validateSchema_eq; reflexivity).
  unfold validateText. rewrite Hparse. reflexivity.
Qed.

Lemma non_object_document_witness :
  collectDiagnostics (parseKnown [JArray []]) None (quizDocument "array.quiz" "[]")
  = [quizDiagnostic zeroRange "Missing required property: metadata" Error;
     quizDiagnostic zeroRange "Missing required property: questions" Error]
    ++ schemaDiagnostics None (JArray []) (quizDocument "array.quiz" "[]").
Proof.
  apply (non_object_document (parseKnown [JArray []]) None
           (quizDocument "array.quiz" "[]") (JArray [])).
  reflexivity.
Defined.

(** A [questions] value that is not an array gets one diagnostic and no
    question is validated: "Missing required property: questions" when it is
    falsy ([null], [false], [0], the empty string), "questions must be an
    array" otherwise (an object, a non-empty string, [true], another
    number). *)
Theorem questions_not_an_array (JSON_parse : string -> completion json)
    (validate : option (json -> list ErrorObject)) (document : TextDocument)
    (members : list (string * json)) (questions : json) :
  JSON_parse (getText document) = Normal (JObject members) ->
  assoc "questions" members = Some questions ->
  (forall items, questions <> JArray items) ->
  collectDiagnostics JSON_parse validate document
  = pushed (validateMetadataProperty (assoc "metadata" members) document)
    ++ [quizDiagnostic (propertyRange document "questions")
          (if truthy (Some questions) then "questions must be an array"
           else "Missing required property: questions") Error]
    ++ schemaDiagnostics validate (JObject members) document.
Proof.
  intros Hparse Hq Hshape. unfold collectDiagnostics.
  rewrite (validateText_parsed _ _ _ _ _ _ Hparse eq_refl eq_refl).
  rewrite (bind_normal _ _ tt (validateMetadataProperty_outcome _ _)).
  rewrite validateSchema_eq, Hq. unfold validateQuestionsProperty.
  destruct (truthy (Some questions)) eqn:T; simpl negb; cbv iota.
  - destruct questions as [| | | | items |];
      try (simpl; unfold pushed; reflexivity).
    destruct (Hshape items eq_refl).
  - simpl. unfold pushed. reflexivity.
Qed.

Lemma questions_not_an_array_witness :
  collectDiagnostics
    (parseKnown [JObject [("metadata", sampleMetadata);
                          ("questions", JObject [("first", capitalQuestion)])]])
    None
    (quizDocument "object.quiz"
       (renderJson (JObject [("metadata", sampleMetadata);
                             ("questions", JObject [("first", capitalQuestion)])])))
  = [quizDiagnostic
       (propertyRange
          (quizDocument "object.quiz"
             (renderJson (JObject [("metadata", sampleMetadata);
                                   ("questions", JObject [("first", capitalQuestion)])])))
          "questions")
       "questions must be an array" Error].
Proof.
  apply (questions_not_an_array _ None _
           [("metadata", sampleMetadata);
            ("questions", JObject [("first", capitalQuestion)])]
           (JObject [("first", capitalQuestion)])).
  - reflexivity.
  - reflexivity.
  - intros items H. discriminate H.
Defined.

(** ** Where a metadata diagnostic points *)

Lemma drop_drop (a b : nat) (text : string) : drop a (drop b text) = drop (b + a) text.
Proof.
  revert text. induction b as [| b IH]; intros text; [reflexivity |].
  destruct text as [| c rest]; simpl.
  - destruct a; reflexivity.
  - apply IH.
Qed.

Lemma substring_drop (k n : nat) (text : string) :
  substring 0 n (drop k text) = substring k n text.
Proof.
  revert text. induction k as [| k IH]; intros text; [reflexivity |].
  destruct text as [| c rest]; simpl.
  - destruct n; reflexivity.
  - apply IH.
Qed.

Lemma prefix_drop (word text : string) (k : nat) :
  prefix word (drop k text) = true <-> substring k (String.length word) text = word.
Proof. rewrite <- substring_drop. apply prefix_correct. Qed.

(** [[\s\S]*?] followed by [rest] matches exactly when [rest] matches
    somewhere further on. *)
Lemma matchItems_lazy (rest : list RegExpItem) (text : string) :
  matches (LazyAny :: rest) text <-> exists k, matches rest (drop k text).
Proof.
  unfold matches. simpl matchItems. induction text as [| c tail IH].
  - destruct (matchItems rest "") eqn:E.
    + split; [intros _; exists 0; simpl; rewrite E; discriminate | discriminate].
    + split; [intros H; contradiction H; reflexivity |].
      intros [k H]. destruct k; simpl in H; rewrite E in H; exact H.
  - destruct (matchItems rest (String c tail)) eqn:E.
    + split; [intros _; exists 0; simpl; rewrite E; discriminate | discriminate].
    + split.
      * intros H.
        assert (Htail : (fix lazy (text : string) : option nat :=
                           match matchItems rest text with
                           | Some n => Some n
                           | None =>
                               match text with
                               | EmptyString => None
                               | String _ tail => option_map S (lazy tail)
                               end
                           end) tail <> None).
        { intros Hn. rewrite Hn in H. contradiction H; reflexivity. }
        apply IH in Htail. destruct Htail as [k Hk]. exists (S k). exact Hk.
      * intros [k Hk]. destruct k as [| k]; [simpl in Hk; rewrite E in Hk; contradiction Hk; reflexivity |].
        simpl in Hk.
        assert (Htail : exists k, matchItems rest (drop k tail) <> None) by (exists k; exact Hk).
        apply IH in Htail. intros Hn. apply Htail.
        destruct ((fix lazy (text : string) : option nat :=
                           match matchItems rest text with
                           | Some n => Some n
                           | None =>
                               match text with
                               | EmptyString => None
                               | String _ tail => option_map S (lazy tail)
                               end
                           end) tail); [discriminate Hn | reflexivity].
Qed.

Lemma matchItems_literal (word : string) (rest : list RegExpItem) (text : string) :
  matches (Literal word :: rest) text
  <-> prefix word text = true /\ matches rest (drop (String.length word) text).
Proof.
  unfold matches. simpl matchItems. destruct (prefix word text).
  - destruct (matchItems rest (drop (String.length word) text)); simpl; split.
    + intros _. split; [reflexivity | discriminate].
    + intros _. discriminate.
    + intros H. contradiction H; reflexivity.
    + intros [_ H]. exact H.
  - split; [intros H; contradiction H; reflexivity | intros [H _]; discriminate H].
Qed.

Lemma matches_nil (text : string) : matches [] text.
Proof. unfold matches. simpl. discriminate. Qed.

(** [exec] finds the leftmost offset where the pattern matches. *)
Lemma execFrom_leftmost (items : list RegExpItem) (text : string) (offset m : nat) :
  execFrom items text offset = Some m
  <-> exists k, m = offset + k /\ matches items (drop k text)
                /\ forall p, p < k -> ~ matches items (drop p text).
Proof.
  unfold matches. revert offset. induction text as [| c tail IH]; intros offset; simpl execFrom.
  - destruct (matchItems items "") eqn:E.
    + split.
      * intros H. injection H as <-. exists 0. split; [lia |]. split; [simpl; rewrite E; discriminate |].
        intros p Hp. lia.
      * intros [k [-> [_ Hmin]]]. destruct k as [| k]; [f_equal; lia |].
        destruct (Hmin 0 (Nat.lt_0_succ k)). simpl. rewrite E. discriminate.
    + split; [discriminate |]. intros [k [_ [H _]]].
      destruct k; simpl in H; rewrite E in H; contradiction H; reflexivity.
  - destruct (matchItems items (String c tail)) eqn:E.
    + split.
      * intros H. injection H as <-. exists 0. split; [lia |]. split; [simpl; rewrite E; discriminate |].
        intros p Hp. lia.
      * intros [k [-> [_ Hmin]]]. destruct k as [| k]; [f_equal; lia |].
        destruct (Hmin 0 (Nat.lt_0_succ k)). simpl. rewrite E. discriminate.
    + rewrite IH. split.
      * intros [k [-> [Hk Hmin]]]. exists (S k). split; [lia |]. split; [exact Hk |].
        intros [| p] Hp; [simpl; rewrite E; intros H; contradiction H; reflexivity |].
        simpl. apply Hmin. lia.
      * intros [k [-> [Hk Hmin]]]. destruct k as [| k];
          [simpl in Hk; rewrite E in Hk; contradiction Hk; reflexivity |].
        exists k. split; [lia |]. split; [exact Hk |].
        intros p Hp. apply (Hmin (S p)). lia.
Qed.

(** The pattern of a dotted property matches at offset [s] exactly when the
    quoted parent occurs there and the quoted child occurs somewhere after
    it. *)
Lemma dotted_pattern_matches (parent child text : string) (s : nat) :
  matches [Literal (quoted parent); LazyAny; Literal (quoted child)] (drop s text)
  <-> occursAt parent text s
      /\ exists j, s + String.length (quoted parent) <= j /\ occursAt child text j.
Proof.
  rewrite matchItems_literal, matchItems_lazy, prefix_drop. unfold occursAt.
  split; intros [Hp [k Hk]]; (split; [exact Hp |]).
  - apply matchItems_literal in Hk. destruct Hk as [Hk _].
    rewrite !drop_drop in Hk. apply prefix_drop in Hk.
    exists (s + (String.length (quoted parent) + k)). split; [lia | exact Hk].
  - destruct Hk as [Hj Hk].
    exists (k - (s + String.length (quoted parent))).
    apply matchItems_literal. split; [| apply matches_nil].
    rewrite !drop_drop. apply prefix_drop.
    replace (s + (String.length (quoted parent)
                  + (k - (s + String.length (quoted parent))))) with k by lia.
    exact Hk.
Qed.

(** For a required field, the range of [metadata.<field>] is found by the
    leftmost match of the pattern ["metadata"[\s\S]*?"<field>"]: it is the
    zero-width range at the first place where the quoted word [metadata]
    occurs in the text, and it is found exactly when the quoted field name
    occurs somewhere after that word.  The range never points at the field
    itself. *)
Theorem metadata_field_range (document : TextDocument) (field : string) (r : Range) :
  In field requiredFields ->
  (findPropertyRange document ("metadata." ++ field) = Some r
   <-> exists i j,
         occursAt "metadata" (getText document) i
         /\ (forall p, p < i -> ~ occursAt "metadata" (getText document) p)
         /\ i + 10 <= j
         /\ occursAt field (getText document) j
         /\ r = mkRange (positionAt document i) (positionAt document i)).
Proof.
  intros _. unfold findPropertyRange, propertyPattern.
  change (splitAtDot ("metadata." ++ field)) with ("metadata", Some field).
  cbv iota beta. set (text := getText document).
  set (items := [Literal (quoted "metadata"); LazyAny; Literal (quoted field)]).
  assert (Hmatch : forall s, matches items (drop s text)
            <-> occursAt "metadata" text s
                /\ exists j, s + 10 <= j /\ occursAt field text j).
  { intros s. apply (dotted_pattern_matches "metadata" field text s). }
  split.
  - destruct (execFrom items text 0) as [i |] eqn:Ei; [| discriminate].
    intros H. injection H as <-. apply execFrom_leftmost in Ei.
    destruct Ei as [k [-> [Hk Hmin]]]. simpl Nat.add.
    apply Hmatch in Hk. destruct Hk as [Hi [j [Hj Hfield]]].
    exists k, j. split; [exact Hi |]. split; [| auto].
    intros p Hp Hocc. apply (Hmin p Hp). apply Hmatch.
    split; [exact Hocc |]. exists j. split; [lia | exact Hfield].
  - intros [i [j [Hi [Hfirst [Hj [Hfield ->]]]]]].
    assert (Ei : execFrom items text 0 = Some i).
    { apply execFrom_leftmost. exists i. split; [reflexivity |]. split.
      - apply Hmatch. split; [exact Hi |]. exists j. split; [exact Hj | exact Hfield].
      - intros p Hp Hm. apply Hmatch in Hm. destruct Hm as [Hocc _].
        exact (Hfirst p Hp Hocc). }
    rewrite Ei. reflexivity.
Qed.

Lemma metadata_field_range_witness :
  findPropertyRange minimalDocument "metadata.version"
  = Some (mkRange (mkPosition 0 1) (mkPosition 0 1))
  /\ (findPropertyRange minimalDocument "metadata.version"
      = Some (mkRange (mkPosition 0 1) (mkPosition 0 1))
      <-> exists i j,
            occursAt "metadata" (getText minimalDocument) i
            /\ (forall p, p < i -> ~ occursAt "metadata" (getText minimalDocument) p)
            /\ i + 10 <= j
            /\ occursAt "version" (getText minimalDocument) j
            /\ mkRange (mkPosition 0 1) (mkPosition 0 1)
               = mkRange (positionAt minimalDocument i) (positionAt minimalDocument i)).
Proof.
  split; [reflexivity |].
  apply (metadata_field_range minimalDocument "version"
           (mkRange (mkPosition 0 1) (mkPosition 0 1))).
  simpl. auto.
Defined.

(** ** The two diagnostics of a true_false answer *)

Lemma true_false_single_answer (members : list (string * json)) (index : nat)
    (opts : list json) (v : json) :
  assoc "type" members = Some (JString "true_false") ->
  assoc "options" members = Some (JArray opts) ->
  assoc "correct_answers" members = Some (JArray [v]) ->
  outcome (checkAnswerIndex index (length opts) v) = Normal tt ->
  pushed (validateQuestion (JObject members) index)
  = pushed (validateQuestionText (assoc "text" members) index)
    ++ pushed (validateQuestionOptions (Some (JString "true_false"))
                 (Some (JArray opts)) index)
    ++ pushed (checkAnswerIndex index (length opts) v)
    ++ pushed (checkTrueFalseAnswer (Some (JString "true_false")) [v] index).
Proof.
  intros Hty Hopts Hans Hloop.
  rewrite (validateQuestion_supported members index "true_false" Hty)
    by (simpl; auto).
  rewrite Hopts, Hans. change (pushed (?a, ?b)) with a.
  rewrite validateQuestionAnswers_array by discriminate.
  rewrite pushed_bind, checkAnswerCount_outcome, checkAnswerCount_pushed. simpl app.
  rewrite pushed_bind. simpl forOf.
  rewrite outcome_bind, Hloop. simpl outcome at 1. cbv iota.
  rewrite pushed_bind, Hloop. simpl pushed at 4. rewrite app_nil_r. reflexivity.
Qed.

Ltac rational_constants :=
  change (inject_Z (Z.of_nat 2)) with 2%Q in *;
  change (inject_Z 0) with 0%Q in *;
  change (inject_Z 1) with 1%Q in *;
  change (inject_Z 2) with 2%Q in *.

(** An answer the range check of two options rejects is neither [0] nor
    [1]. *)
Lemma invalid_of_two_not_zero_or_one (v : json) :
  isInvalidIndex v 2 = true -> isZeroOrOne v = false.
Proof.
  unfold isInvalidIndex, isZeroOrOne, strictNeqNumber, numberLtZero, numberGeLength,
    numberEq.
  destruct v as [| b | [[q | negative] text] | s | items | members];
    cbn [valueOf]; try reflexivity.
  intros H. apply orb_true_iff in H.
  destruct (Qeq_bool q (inject_Z 0)) eqn:E0.
  { apply Qeq_bool_iff in E0. destruct H as [H | H].
    - apply negb_true_iff in H.
      assert (Hle : Qle_bool (inject_Z 0) q = true) by (apply Qle_bool_iff; rational_constants; lra).
      rewrite Hle in H. discriminate H.
    - apply Qle_bool_iff in H. exfalso. rational_constants. lra. }
  destruct (Qeq_bool q (inject_Z 1)) eqn:E1; [| reflexivity].
  apply Qeq_bool_iff in E1. destruct H as [H | H].
  - apply negb_true_iff in H.
    assert (Hle : Qle_bool (inject_Z 0) q = true) by (apply Qle_bool_iff; rational_constants; lra).
    rewrite Hle in H. discriminate H.
  - apply Qle_bool_iff in H. exfalso. rational_constants. lra.
Qed.

(** An answer within two options that is neither [0] nor [1] is a number
    strictly between [0] and [2] other than [1]. *)
Lemma fraction_of_two (v : json) :
  isInvalidIndex v 2 = false -> isZeroOrOne v = false ->
  exists n q, v = JNumber n /\ valueOf n = Finite q
              /\ (inject_Z 0 < q < inject_Z 2)%Q /\ ~ (q == inject_Z 1)%Q.
Proof.
  intros Hvalid Hdomain. apply isInvalidIndex_false in Hvalid.
  destruct Hvalid as [n [q [-> [Hq [H0 H2]]]]]. exists n, q.
  split; [reflexivity |]. split; [exact Hq |].
  unfold isZeroOrOne, strictNeqNumber, numberEq in Hdomain. rewrite Hq in Hdomain.
  apply negb_false_iff in Hdomain. apply andb_true_iff in Hdomain.
  destruct Hdomain as [E0 E1]. apply negb_true_iff in E0, E1.
  apply Qeq_bool_neq in E0, E1. change (inject_Z (Z.of_nat 2)) with (inject_Z 2) in H2.
  split; [| exact E1]. split; [| exact H2].
  apply Qle_lteq in H0. destruct H0 as [H0 | H0]; [exact H0 |].
  contradiction E0. symmetry. exact H0.
Qed.

(** On a true_false question with its two options and one answer [v] that
    converts to a string, the diagnostic "correct_answers contains invalid
    index <v>. Valid range: 0-1" is pushed exactly when [v] is not a number
    with [0 <= v < 2], and the diagnostic "true_false questions must have
    correct_answers index 0 or 1" exactly when [v] is neither [0] nor [1].
    So the first never comes without the second, and the second comes alone
    exactly for a number strictly between [0] and [2] other than [1], such
    as [0.5]. *)
Theorem true_false_diagnostics_paired (members : list (string * json))
    (index : nat) (o1 o2 v : json) (shown : string) :
  assoc "type" members = Some (JString "true_false") ->
  assoc "options" members = Some (JArray [o1; o2]) ->
  assoc "correct_answers" members = Some (JArray [v]) ->
  toString v = Normal shown ->
  let ds := pushed (validateQuestion (JObject members) index) in
  let domain :=
    questionDiagnostic index
      "true_false questions must have correct_answers index 0 or 1" Error in
  let invalid := questionDiagnostic index (invalidIndexBody shown 2) Error in
  (In domain ds <-> isZeroOrOne v = false)
  /\ (In invalid ds <-> ~ inRange v 2)
  /\ (In invalid ds -> In domain ds)
  /\ (In domain ds /\ ~ In invalid ds
      <-> exists n q, v = JNumber n /\ valueOf n = Finite q
                      /\ (inject_Z 0 < q < inject_Z 2)%Q /\ ~ (q == inject_Z 1)%Q).
Proof.
  intros Hty Hopts Hans Hshown ds domain invalid.
  assert (Hloop : outcome (checkAnswerIndex index 2 v) = Normal tt).
  { unfold checkAnswerIndex. destruct (isInvalidIndex v 2); [| reflexivity].
    rewrite Hshown. reflexivity. }
  assert (Hdomain : In domain ds <-> isZeroOrOne v = false).
  { unfold isZeroOrOne. rewrite negb_false_iff, andb_true_iff.
    exact (proj1 (proj1 (true_false_domain_diagnostic members index [o1; o2] [v]
                           Hty Hopts Hans) v eq_refl Hloop)). }
  assert (Hinvalid : In invalid ds <-> isInvalidIndex v 2 = true).
  { unfold ds.
    rewrite (true_false_single_answer members index [o1; o2] v Hty Hopts Hans Hloop).
    simpl length. split.
    - intros Hd. rewrite !in_app_iff in Hd. destruct Hd as [H | [H | [H | H]]].
      + apply text_diagnostics in H. destruct H as [H | H];
          apply questionDiagnostic_inj in H; destruct H as [H _]; discriminate H.
      + apply options_diagnostics in H. destruct H as [H | [H | [H | H]]];
          apply questionDiagnostic_inj in H; destruct H as [Hb Hs];
          first [discriminate Hs | discriminate Hb].
      + unfold checkAnswerIndex in H. destruct (isInvalidIndex v 2); [reflexivity |].
        destruct H.
      + apply checkTrueFalseAnswer_diagnostics in H.
        apply questionDiagnostic_inj in H. destruct H as [H _]. discriminate H.
    - intros Hv. rewrite !in_app_iff. right. right. left.
      rewrite (checkAnswerIndex_invalid index 2 v shown Hv Hshown). left. reflexivity. }
  split; [exact Hdomain |].
  split; [rewrite Hinvalid; apply isInvalidIndex_true |].
  split.
  - intros H. apply Hdomain. apply invalid_of_two_not_zero_or_one. apply Hinvalid. exact H.
  - rewrite Hdomain, Hinvalid. split.
    + intros [Hd Hv]. apply fraction_of_two; [| exact Hd].
      destruct (isInvalidIndex v 2); [contradiction Hv; reflexivity | reflexivity].
    + intros [n [q [-> [Hq [[H0 H2] H1]]]]].
      unfold isZeroOrOne, isInvalidIndex, strictNeqNumber, numberEq, numberLtZero,
        numberGeLength. rewrite Hq. split.
      * apply negb_false_iff. apply andb_true_iff. split; apply negb_true_iff.
        -- destruct (Qeq_bool q (inject_Z 0)) eqn:E; [| reflexivity].
           apply Qeq_bool_iff in E. exfalso. rational_constants. lra.
        -- destruct (Qeq_bool q (inject_Z 1)) eqn:E; [| reflexivity].
           apply Qeq_bool_iff in E. contradiction.
      * intros H. apply orb_true_iff in H. destruct H as [H | H].
        -- apply negb_true_iff in H.
           assert (Hle : Qle_bool (inject_Z 0) q = true) by (apply Qle_bool_iff; rational_constants; lra).
           rewrite Hle in H. discriminate H.
        -- apply Qle_bool_iff in H. rational_constants. lra.
Qed.

Lemma true_false_diagnostics_paired_witness :
  let ds := pushed (validateQuestion (JObject answerHalfMembers) 0) in
  let domain :=
    questionDiagnostic 0
      "true_false questions must have correct_answers index 0 or 1" Error in
  let invalid := questionDiagnostic 0 (invalidIndexBody "0.5" 2) Error in
  (In domain ds <-> isZeroOrOne (JNumber half) = false)
  /\ (In invalid ds <-> ~ inRange (JNumber half) 2)
  /\ (In invalid ds -> In domain ds)
  /\ (In domain ds /\ ~ In invalid ds
      <-> exists n q, JNumber half = JNumber n /\ valueOf n = Finite q
                      /\ (inject_Z 0 < q < inject_Z 2)%Q /\ ~ (q == inject_Z 1)%Q).
Proof.
  apply (true_false_diagnostics_paired answerHalfMembers 0 (JString "True")
           (JString "False") (JNumber half) "0.5"); reflexivity.
Defined.

(** ** Commands, listeners and the collection *)

Lemma collectionGet_set_other (key other : string) (ds : list Diagnostic)
    (c : DiagnosticCollection) :
  other <> key ->
  collectionGet other (collectionSet key ds c) = collectionGet other c.
Proof.
  intros Hne. induction c as [| [k old] rest IH]; simpl.
  - destruct (String.eqb key other) eqn:E; [| reflexivity].
    apply String.eqb_eq in E. subst. contradiction Hne; reflexivity.
  - destruct (String.eqb k key) eqn:Ek; simpl.
    + apply String.eqb_eq in Ek. subst k.
      destruct (String.eqb key other) eqn:E; [| reflexivity].
      apply String.eqb_eq in E. subst. contradiction Hne; reflexivity.
    + rewrite IH. reflexivity.
Qed.

Section ActivationProperties.

Variable JSON_parse : string -> completion json.
Variable validate : option (json -> list ErrorObject).

Lemma onDidChangeTextDocument_eq (document : TextDocument) (c : DiagnosticCollection) :
  onDidChangeTextDocument JSON_parse validate document c
  = validateQuizFile JSON_parse validate document c.
Proof.
  unfold onDidChangeTextDocument, validateQuizFile, isQuizFile.
  destruct (endsWith (fileName document) ".quiz"); reflexivity.
Qed.

Lemma validateQuizFile_other (document : TextDocument) (c : DiagnosticCollection)
    (other : string) :
  other <> uri document ->
  collectionGet other (validateQuizFile JSON_parse validate document c)
  = collectionGet other c.
Proof.
  intros Hne. unfold validateQuizFile.
  destruct (endsWith (fileName document) ".quiz"); simpl negb; cbv iota;
    [apply collectionGet_set_other; exact Hne | reflexivity].
Qed.

Lemma onDocumentEvents_other (events : list TextDocument) (c : DiagnosticCollection)
    (other : string) :
  (forall e, In e events -> uri e <> other) ->
  collectionGet other (onDocumentEvents JSON_parse validate events c)
  = collectionGet other c.
Proof.
  unfold onDocumentEvents. revert c. induction events as [| e rest IH]; intros c Hne.
  - reflexivity.
  - simpl fold_left. rewrite IH by (intros x Hx; apply Hne; right; exact Hx).
    rewrite onDidChangeTextDocument_eq. apply validateQuizFile_other.
    intros Heq. exact (Hne e (or_introl eq_refl) (eq_sym Heq)).
Qed.

(** After any run of open and change events, the list published for a
    [.quiz] document is the one computed from the text of its last event:
    earlier validations of the same document leave no trace, and events of
    documents with another uri do not touch it. *)
Theorem last_validation_wins (events rest : list TextDocument)
    (document : TextDocument) (diagnosticCollection : DiagnosticCollection) :
  isQuizFile document = true ->
  (forall e, In e rest -> uri e <> uri document) ->
  collectionGet (uri document)
    (onDocumentEvents JSON_parse validate (events ++ document :: rest)
       diagnosticCollection)
  = Some (collectDiagnostics JSON_parse validate document).
Proof.
  intros Hquiz Hrest. unfold onDocumentEvents. rewrite fold_left_app. simpl fold_left.
  fold (onDocumentEvents JSON_parse validate events diagnosticCollection).
  set (c := onDocumentEvents JSON_parse validate events diagnosticCollection).
  fold (onDocumentEvents JSON_parse validate rest
          (onDidChangeTextDocument JSON_parse validate document c)).
  rewrite (onDocumentEvents_other rest _ (uri document) Hrest).
  rewrite onDidChangeTextDocument_eq. unfold validateQuizFile.
  unfold isQuizFile in Hquiz. rewrite Hquiz. simpl negb. cbv iota.
  apply collectionGet_set.
Qed.

(** Nothing ever withdraws a published list: a uri that has an entry in the
    collection still has one after any run of events. *)
Theorem published_entries_persist (events : list TextDocument)
    (diagnosticCollection : DiagnosticCollection) (key : string) :
  collectionGet key diagnosticCollection <> None ->
  collectionGet key (onDocumentEvents JSON_parse validate events diagnosticCollection)
  <> None.
Proof.
  unfold onDocumentEvents. revert diagnosticCollection.
  induction events as [| e rest IH]; intros c Hc; [exact Hc |].
  simpl fold_left. apply IH. rewrite onDidChangeTextDocument_eq.
  destruct (String.eqb key (uri e)) eqn:E.
  - apply String.eqb_eq in E. subst key. unfold validateQuizFile.
    destruct (endsWith (fileName e) ".quiz"); simpl negb; cbv iota; [| exact Hc].
    rewrite collectionGet_set. discriminate.
  - rewrite validateQuizFile_other; [exact Hc |].
    intros ->. rewrite String.eqb_refl in E. discriminate E.
Qed.

(** The command "force validate" validates no more than the command
    "validate": whatever the active editor, both leave the same collection,
    the one the listener of the active editor leaves too.  On a document
    whose name does not end in [.quiz] the forced validation changes nothing
    and still announces "Force validation completed!". *)
Theorem force_validate_validates_alike (activeEditor : option TextDocument)
    (diagnosticCollection : DiagnosticCollection) :
  fst (forceValidateCommand JSON_parse validate activeEditor diagnosticCollection)
  = fst (validateCommand JSON_parse validate activeEditor diagnosticCollection)
  /\ fst (validateCommand JSON_parse validate activeEditor diagnosticCollection)
     = onDidChangeActiveTextEditor JSON_parse validate activeEditor diagnosticCollection
  /\ match activeEditor with
     | Some document =>
         if isQuizFile document then True
         else forceValidateCommand JSON_parse validate activeEditor diagnosticCollection
              = (diagnosticCollection, InformationMessage "Force validation completed!")
     | None => True
     end.
Proof.
  unfold forceValidateCommand, validateCommand, onDidChangeActiveTextEditor.
  destruct activeEditor as [document |]; [| repeat split].
  unfold validateQuizFile, isQuizFile.
  destruct (endsWith (fileName document) ".quiz"); repeat split.
Qed.

End ActivationProperties.

Lemma last_validation_wins_witness :
  collectionGet (uri emptyDocument)
    (onDocumentEvents sampleParse None
       ([brokenDocument; quizDocument "empty.quiz" "{ metadata: "]
        ++ emptyDocument :: [minimalDocument])
       [])
  = Some (collectDiagnostics sampleParse None emptyDocument).
Proof.
  apply (last_validation_wins sampleParse None
           [brokenDocument; quizDocument "empty.quiz" "{ metadata: "]
           [minimalDocument] emptyDocument []).
  - reflexivity.
  - intros e [<- | []]. discriminate.
Defined.

Lemma published_entries_persist_witness :
  collectionGet "file:///minimal.quiz"
    (onDocumentEvents sampleParse None [brokenDocument; emptyDocument]
       [("file:///minimal.quiz", [])])
  <> None.
Proof.
  apply (published_entries_persist sampleParse None [brokenDocument; emptyDocument]
           [("file:///minimal.quiz", [])] "file:///minimal.quiz").
  discriminate.
Defined.

(** ** Loading the schema *)

(** The schema in use is the one of the first path that exists and loads:
    every path before it is absent or fails to load; and no schema is in use
    exactly when every path is absent or fails to load. *)
Theorem loadSchema_first_loadable (existsSync : string -> bool)
    (compileSchemaAt : string -> option (json -> list ErrorObject))
    (possibleSchemaPaths : list string) :
  match loadSchema existsSync compileSchemaAt possibleSchemaPaths with
  | Some compiled =>
      exists before schemaPath after,
        possibleSchemaPaths = before ++ schemaPath :: after
        /\ existsSync schemaPath = true
        /\ compileSchemaAt schemaPath = Some compiled
        /\ forall p, In p before -> existsSync p = false \/ compileSchemaAt p = None
  | None =>
      forall p, In p possibleSchemaPaths ->
        existsSync p = false \/ compileSchemaAt p = None
  end.
Proof.
  induction possibleSchemaPaths as [| p rest IH]; simpl loadSchema.
  - intros p [].
  - destruct (existsSync p) eqn:Ep.
    + destruct (compileSchemaAt p) as [compiled |] eqn:Cp.
      * exists [], p, rest. repeat split; try assumption. intros q [].
      * destruct (loadSchema existsSync compileSchemaAt rest) as [compiled |].
        -- destruct IH as [before [q [after [-> [Hq [Cq Hbefore]]]]]].
           exists (p :: before), q, after. repeat split; try assumption.
           intros x [<- | Hx]; [right; exact Cp | exact (Hbefore x Hx)].
        -- intros x [<- | Hx]; [right; exact Cp | exact (IH x Hx)].
    + destruct (loadSchema existsSync compileSchemaAt rest) as [compiled |].
      * destruct IH as [before [q [after [-> [Hq [Cq Hbefore]]]]]].
        exists (p :: before), q, after. repeat split; try assumption.
        intros x [<- | Hx]; [left; exact Ep | exact (Hbefore x Hx)].
      * intros x [<- | Hx]; [left; exact Ep | exact (IH x Hx)].
Qed.

(** ** What the callback reads *)



(** ** Numbering of the questions *)

Lemma digits_then_colon (d1 d2 : Decimal.uint) (x y : string) :
  (NilEmpty.string_of_uint d1 ++ ": " ++ x)%string
  = (NilEmpty.string_of_uint d2 ++ ": " ++ y)%string ->
  d1 = d2.
Proof.
  revert d2. induction d1 as [| d1 IH | d1 IH | d1 IH | d1 IH | d1 IH
                               | d1 IH | d1 IH | d1 IH | d1 IH | d1 IH];
    intros d2; destruct d2; simpl; intros H;
    first [ reflexivity | discriminate H
          | injection H as H; f_equal; exact (IH _ H) ].
Qed.

Lemma numberToString_positive (p : positive) :
  numberToString (Z.pos p) = NilEmpty.string_of_uint (Pos.to_uint p).
Proof.
  unfold numberToString. simpl. unfold NilZero.string_of_uint.
  destruct (Pos.to_uint p) eqn:E; try reflexivity.
  destruct (Unsigned.to_uint_nonnil p E).
Qed.

Lemma questionLabel_inj (i j : nat) (x y : string) :
  (questionLabel i ++ x)%string = (questionLabel j ++ y)%string -> i = j.
Proof.
  rewrite !questionLabel_append. intros H.
  apply (append_cancel "Question ") in H.
  destruct (Z.of_nat i + 1)%Z as [| p | p] eqn:Ei; try lia.
  destruct (Z.of_nat j + 1)%Z as [| q | q] eqn:Ej; try lia.
  rewrite !numberToString_positive in H. apply digits_then_colon in H.
  apply Unsigned.to_uint_inj in H. subst q. lia.
Qed.

(** A diagnostic names its question without ambiguity: the callback never
    pushes the same diagnostic at two different positions, whatever the
    questions there. *)
Theorem diagnostic_names_one_question (question question' : json) (i j : nat)
    (d : Diagnostic) :
  In d (pushed (validateQuestion question i)) ->
  In d (pushed (validateQuestion question' j)) ->
  i = j.
Proof.
  intros Hi Hj.
  assert (Hmessage : forall index, questionShape index d ->
            exists body, message d = (questionLabel index ++ body)%string).
  { intros index [[body ->] | [type ->]]; eexists; reflexivity. }
  destruct (Hmessage i (validateQuestion_shape question i d Hi)) as [x Hx].
  destruct (Hmessage j (validateQuestion_shape question' j d Hj)) as [y Hy].
  rewrite Hx in Hy. exact (questionLabel_inj i j x y Hy).
Qed.

Lemma diagnostic_names_one_question_witness :
  In (questionDiagnostic 0 (invalidTypeBody "essay") Error)
     (pushed (validateQuestion essayQuestion 0))
  /\ In (questionDiagnostic 0 (invalidTypeBody "essay") Error)
        (pushed (validateQuestion essayWithAnswers 0))
  /\ 0 = 0.
Proof.
  split; [left; reflexivity |]. split; [left; reflexivity |].
  apply (diagnostic_names_one_question essayQuestion essayWithAnswers 0 0
           (questionDiagnostic 0 (invalidTypeBody "essay") Error));
    left; reflexivity.
Defined.

(** ** The order of the questions' diagnostics *)

Lemma forEachFrom_in_order (items : list json) (start : nat) :
  (forall i question, nth_error items i = Some question ->
     outcome (validateQuestion question (start + i)) = Normal tt) ->
  forEachFrom validateQuestion items start
  = (flat_map (fun iq => pushed (validateQuestion (snd iq) (fst iq)))
       (combine (seq start (length items)) items), Normal tt).
Proof.
  revert start. induction items as [| x rest IH]; intros start Hall.
  - reflexivity.
  - simpl forEachFrom.
    assert (Hx : outcome (validateQuestion x start) = Normal tt).
    { specialize (Hall 0 x eq_refl). rewrite Nat.add_0_r in Hall. exact Hall. }
    rewrite (bind_normal _ _ tt Hx). rewrite IH.
    + reflexivity.
    + intros i question Hq. replace (S start + i) with (start + S i) by lia.
      apply Hall. exact Hq.
Qed.

(** When the callback completes on every question, the diagnostics of the
    questions are those of the first question, then those of the second,
    and so on, each question at its position; none is dropped, merged or
    reordered. *)
Theorem question_diagnostics_in_order (items : list json) (document : TextDocument) :
  (forall i question, nth_error items i = Some question ->
     outcome (validateQuestion question i) = Normal tt) ->
  validateQuestions (JArray items) document
  = (flat_map (fun iq => pushed (validateQuestion (snd iq) (fst iq))) (indexed items),
     Normal tt).
Proof.
  intros Hall. unfold validateQuestions, forEach, indexed.
  apply forEachFrom_in_order. exact Hall.
Qed.

Lemma question_diagnostics_in_order_witness :
  validateQuestions (JArray [essayQuestion; capitalQuestion; emptyAnswersQuestion])
    sampleDocument
  = ([questionDiagnostic 0 (invalidTypeBody "essay") Error;
      questionDiagnostic 2 "correct_answers cannot be empty" Error], Normal tt).
Proof.
  apply (question_diagnostics_in_order
           [essayQuestion; capitalQuestion; emptyAnswersQuestion] sampleDocument).
  intros [| [| [| i]]] question H; try (injection H as <-; reflexivity).
  destruct i; discriminate H.
Defined.

Lemma question_diagnostics_published_witness :
  In (questionDiagnostic 1 (invalidTypeBody "essay") Error)
     (collectDiagnostics
        (parseKnown [JObject [("metadata", sampleMetadata);
                              ("questions", JArray [capitalQuestion; essayQuestion])]])
        None
        (quizDocument "two.quiz"
           (renderJson (JObject [("metadata", sampleMetadata);
                                 ("questions", JArray [capitalQuestion; essayQuestion])])))).
Proof.
  apply (question_diagnostics_published _ None _
           [("metadata", sampleMetadata);
            ("questions", JArray [capitalQuestion; essayQuestion])]
           [capitalQuestion; essayQuestion] 1 essayQuestion).
  - reflexivity.
  - reflexivity.
  - reflexivity.
  - intros [| j] earlier Hj H; [injection H as <-; reflexivity | lia].
  - left. reflexivity.
Defined.
